(** * mcp-hq: the repository-analysis pipeline

    A shallow embedding of the two analyser scripts of the repository,

    - [nu/analyze_mcp_repository.py]   (class [MCPRepositoryAnalyzer], module [Nu]),
    - [scripts/analyze_mcp_server_repo.py] (class [MCPServerAnalyzer], module [Scripts]),

    and the properties of their URL resolution, response extraction,
    key-file selection, agent selection and fallback synthesis.

    Python text is a [string] (a sequence of 8-bit characters), a [dict]
    parsed from JSON is an insertion-ordered association list, the typed
    dictionaries the scripts build themselves are [gmap]s, exceptions are
    carried by the [result] type, and everything the scripts get from the
    outside (child processes, the clock, the template file) comes from an
    explicit [world] record. *)

From Stdlib Require Import String Ascii List ZArith Lia Bool.
From stdpp Require Import gmap strings list fin_maps sorting pretty.
Import ListNotations.

Open Scope string_scope.

(** ** Exceptions and results *)

Inductive exn : Type :=
| ValueError (msg : string)
| KeyError (key : string)
| TypeError
| AttributeError
| JSONDecodeError
| TimeoutExpired
| OSError.

Inductive result (A : Type) : Type :=
| Ok (a : A)
| Raise (e : exn).
Arguments Ok {A} a.
Arguments Raise {A} e.

#[global] Instance result_bind : MBind result :=
  fun A B (f : A -> result B) (r : result A) =>
    match r with
    | Ok a => f a
    | Raise e => Raise e
    end.

#[global] Instance result_ret : MRet result := fun A a => Ok a.

(** [try: body except handled: ...]: the handler sees an exception only
    when it names a clause for it; any other exception propagates. *)
Definition try_except {A} (body : result A) (handler : exn -> option (result A))
  : result A :=
  match body with
  | Ok a => Ok a
  | Raise e => match handler e with
               | Some r => r
               | None => Raise e
               end
  end.

(** ** Python string operations used by the scripts *)

Module Py.

(** [s.find(c)]: index of the first occurrence, [-1] when there is none. *)
Fixpoint find_from (c : ascii) (s : string) (i : Z) : Z :=
  match s with
  | EmptyString => (-1)%Z
  | String a s' => if Ascii.eqb a c then i else find_from c s' (i + 1)%Z
  end.

Definition find (s : string) (c : ascii) : Z := find_from c s 0.

(** [s.rfind(c)]: index of the last occurrence, [-1] when there is none. *)
Fixpoint rfind_from (c : ascii) (s : string) (i last : Z) : Z :=
  match s with
  | EmptyString => last
  | String a s' => rfind_from c s' (i + 1)%Z (if Ascii.eqb a c then i else last)
  end.

Definition rfind (s : string) (c : ascii) : Z := rfind_from c s 0 (-1).

(** [s[start:stop]] with Python's treatment of negative and out-of-range
    bounds. *)
Definition slice_bound (len i : Z) : Z :=
  let j := if (i <? 0)%Z then (i + len)%Z else i in
  Z.max 0 (Z.min len j).

Definition slice (s : string) (start stop : Z) : string :=
  let len := Z.of_nat (String.length s) in
  let a := slice_bound len start in
  let b := slice_bound len stop in
  substring (Z.to_nat a) (Z.to_nat (b - a)) s.

(** [s.endswith(suffix)] *)
Definition endswith (s suffix : string) : bool :=
  let n := String.length s in
  let m := String.length suffix in
  (m <=? n)%nat && String.eqb (substring (n - m) m s) suffix.

(** [sub in s] *)
Fixpoint contains (sub s : string) : bool :=
  String.prefix sub s ||
  match s with
  | EmptyString => false
  | String _ s' => contains sub s'
  end.

(** [c in s] for a one-character needle *)
Fixpoint has_char (c : ascii) (s : string) : bool :=
  match s with
  | EmptyString => false
  | String a s' => Ascii.eqb a c || has_char c s'
  end.

(** [s.strip()]: whitespace is removed at both ends. *)
Definition is_space (a : ascii) : bool :=
  let n := nat_of_ascii a in
  ((9 <=? n) && (n <=? 13) || (28 <=? n) && (n <=? 32))%nat.

Fixpoint lstrip (s : string) : string :=
  match s with
  | EmptyString => EmptyString
  | String a s' => if is_space a then lstrip s' else s
  end.

Fixpoint rstrip (s : string) : string :=
  match s with
  | EmptyString => EmptyString
  | String a s' =>
      match rstrip s' with
      | EmptyString => if is_space a then EmptyString else String a EmptyString
      | t => String a t
      end
  end.

Definition strip (s : string) : string := rstrip (lstrip s).

(** Truthiness of [Optional[str]]: [None] and [''] are false. *)
Definition truthy (o : option string) : bool :=
  match o with
  | None => false
  | Some s => negb (String.eqb s "")
  end.

End Py.

(** ** Regular expressions: the fragment of [re] the URL patterns use

    A backtracking matcher in continuation-passing style, which tries the
    alternatives in the order Python's [re] does: a greedy quantifier takes
    the longest repetition first, a lazy one the shortest, an optional
    group is tried before it is skipped. *)

Module Re.

Inductive cls : Type :=
| Char (c : ascii)        (* the character c *)
| NotChar (c : ascii).    (* [^c] *)

Inductive regex : Type :=
| One (k : cls)
| Plus (k : cls) (greedy : bool)     (* k+ and k+? *)
| Opt (r : regex)                    (* (?:r)? *)
| Group (n : nat) (r : regex)        (* (r), the n-th capturing group *)
| Cat (r1 r2 : regex)
| Eol.                               (* $ *)

Definition test (k : cls) (a : ascii) : bool :=
  match k with
  | Char c => Ascii.eqb a c
  | NotChar c => negb (Ascii.eqb a c)
  end.

(** The groups of a match: [match.group(n)], [None] for a group that did
    not take part. *)
Definition groups : Type := nat -> option string.

Definition no_groups : groups := fun _ => None.

Definition set_group (n : nat) (w : list ascii) (g : groups) : groups :=
  fun m => if Nat.eqb m n then Some (string_of_list_ascii w) else g m.

(** What was read between the input [s] and the rest [s']. *)
Definition consumed (s s' : list ascii) : list ascii :=
  take (length s - length s') s.

Section Quantifiers.
Context {A : Type} (p : ascii -> bool).

Fixpoint star_greedy (s : list ascii) (k : list ascii -> option A) : option A :=
  match s with
  | a :: s' =>
      if p a then
        match star_greedy s' k with
        | Some x => Some x
        | None => k s
        end
      else k s
  | [] => k s
  end.

Definition plus_greedy (s : list ascii) (k : list ascii -> option A) : option A :=
  match s with
  | a :: s' => if p a then star_greedy s' k else None
  | [] => None
  end.

Fixpoint plus_lazy (s : list ascii) (k : list ascii -> option A) : option A :=
  match s with
  | a :: s' =>
      if p a then
        match k s' with
        | Some x => Some x
        | None => plus_lazy s' k
        end
      else None
  | [] => None
  end.
End Quantifiers.

(** [$] without [re.MULTILINE]: the end of the text, or just before a
    newline that ends the text. *)
Definition at_end (s : list ascii) : bool :=
  match s with
  | [] => true
  | [a] => Ascii.eqb a "010"%char
  | _ => false
  end.

Fixpoint rmatch (r : regex) (s : list ascii) (g : groups)
    (k : list ascii -> groups -> option groups) : option groups :=
  match r with
  | One c =>
      match s with
      | a :: s' => if test c a then k s' g else None
      | [] => None
      end
  | Plus c true => plus_greedy (test c) s (fun s' => k s' g)
  | Plus c false => plus_lazy (test c) s (fun s' => k s' g)
  | Opt r1 =>
      match rmatch r1 s g k with
      | Some x => Some x
      | None => k s g
      end
  | Group n r1 =>
      rmatch r1 s g (fun s' g' => k s' (set_group n (consumed s s') g'))
  | Cat r1 r2 => rmatch r1 s g (fun s1 g1 => rmatch r2 s1 g1 k)
  | Eol => if at_end s then k s g else None
  end.

(** [re.search]: the leftmost position at which the pattern matches. *)
Fixpoint search_from (r : regex) (s : list ascii) : option groups :=
  match rmatch r s no_groups (fun _ g => Some g) with
  | Some g => Some g
  | None =>
      match s with
      | [] => None
      | _ :: s' => search_from r s'
      end
  end.

Definition search (r : regex) (s : string) : option groups :=
  search_from r (list_ascii_of_string s).

(** Three static readings of a pattern: every match reads at least one
    character; group [n] is left alone; every match leaves group [n] set
    to a non-empty text. *)
Fixpoint nonempty (r : regex) : bool :=
  match r with
  | One _ | Plus _ _ => true
  | Opt _ | Eol => false
  | Group _ r1 => nonempty r1
  | Cat r1 r2 => nonempty r1 || nonempty r2
  end.

Fixpoint untouched (n : nat) (r : regex) : bool :=
  match r with
  | One _ | Plus _ _ | Eol => true
  | Opt r1 => untouched n r1
  | Group m r1 => negb (Nat.eqb n m) && untouched n r1
  | Cat r1 r2 => untouched n r1 && untouched n r2
  end.

Fixpoint sets (n : nat) (r : regex) : bool :=
  match r with
  | One _ | Plus _ _ | Eol | Opt _ => false
  | Group m r1 => if Nat.eqb n m then nonempty r1 else sets n r1
  | Cat r1 r2 => sets n r2 || (sets n r1 && untouched n r2)
  end.

(** [den r s g s' g']: the pattern [r] reads a prefix of [s], leaves [s']
    and turns the groups [g] into [g']. *)
Fixpoint den (r : regex) (s : list ascii) (g : groups) (s' : list ascii)
    (g' : groups) : Prop :=
  match r with
  | One c => exists a, s = a :: s' /\ test c a = true /\ g' = g
  | Plus c _ =>
      exists a w, s = a :: (w ++ s')%list /\ test c a = true
                  /\ Forall (fun b => test c b = true) w /\ g' = g
  | Opt r1 => den r1 s g s' g' \/ (s' = s /\ g' = g)
  | Group n r1 =>
      exists g0, den r1 s g s' g0 /\ g' = set_group n (consumed s s') g0
  | Cat r1 r2 => exists s1 g1, den r1 s g s1 g1 /\ den r2 s1 g1 s' g'
  | Eol => at_end s = true /\ s' = s /\ g' = g
  end.

(** A literal string followed by [rest]. *)
Fixpoint lit (s : string) (rest : regex) : regex :=
  match s with
  | EmptyString => rest
  | String a s' => Cat (One (Char a)) (lit s' rest)
  end.

End Re.

(** ** URL resolution (both scripts carry the same [_parse_github_url]) *)

Module Url.
Import Re.

Definition slash : ascii := "/"%char.

(** [github\.com/([^/]+)/([^/]+?)(?:\.git)?/?$] *)
Definition pattern_plain : regex :=
  lit "github.com/"
    (Cat (Group 1 (Plus (NotChar slash) true))
    (Cat (One (Char slash))
    (Cat (Group 2 (Plus (NotChar slash) false))
    (Cat (Opt (lit ".gi" (One (Char "t"%char))))
    (Cat (Opt (One (Char slash)))
         Eol))))).

(** [github\.com/([^/]+)/([^/]+)/tree/] and [.../blob/] *)
Definition pattern_sub (dir : string) : regex :=
  lit "github.com/"
    (Cat (Group 1 (Plus (NotChar slash) true))
    (Cat (One (Char slash))
    (Cat (Group 2 (Plus (NotChar slash) true))
         (lit ("/" ++ dir) (One (Char slash)))))).

Definition patterns : list regex :=
  [ pattern_plain; pattern_sub "tree"; pattern_sub "blob" ].

(** [for pattern in patterns: match = re.search(pattern, url); if match:
    return match.group(1), match.group(2)] and [return None, None]. *)
Fixpoint first_match (ps : list regex) (url : string)
  : option string * option string :=
  match ps with
  | [] => (None, None)
  | p :: ps' =>
      match search p url with
      | Some g => (g 1%nat, g 2%nat)
      | None => first_match ps' url
      end
  end.

Definition _parse_github_url (url : string) : option string * option string :=
  first_match patterns url.

(** Whether some pattern of the list matches somewhere in the text. *)
Definition some_pattern_matches (url : string) : bool :=
  existsb (fun p => match search p url with Some _ => true | None => false end)
          patterns.

End Url.

(** ** JSON values

    What [json.loads] returns: [None], [bool], [int], [float] (kept as its
    lexeme), [str], [list] and [dict]. A [dict] keeps its keys in
    insertion order. *)

Unset Elimination Schemes.
Inductive json : Type :=
| JNull
| JBool (b : bool)
| JInt (n : Z)
| JFloat (lexeme : string)
| JStr (s : string)
| JArr (items : list json)
| JObj (members : list (string * json)).
Set Elimination Schemes.

Abbreviation dict := (list (string * json)).

Module Dict.

(** [d.get(k)] *)
Fixpoint get (k : string) (d : dict) : option json :=
  match d with
  | [] => None
  | (k', v) :: d' => if String.eqb k' k then Some v else get k d'
  end.

(** [k in d] *)
Definition mem (k : string) (d : dict) : bool :=
  match get k d with Some _ => true | None => false end.

(** [d[k] = v]: an existing key keeps its place, a new key goes last. *)
Fixpoint set (k : string) (v : json) (d : dict) : dict :=
  match d with
  | [] => [(k, v)]
  | (k', v') :: d' =>
      if String.eqb k' k then (k', v) :: d' else (k', v') :: set k v d'
  end.

Definition keys (d : dict) : list string := map fst d.

End Dict.

(** ** A reference JSON reader

    [json.loads] is a library function; the pipeline below takes it as a
    parameter. This reader instantiates it on concrete documents: objects,
    arrays, strings with the one-character escapes, numbers and the
    literals. (A [\u] escape is outside its fragment.) *)

Module JsonReader.
Open Scope char_scope.

Definition dquote : ascii := "034".

Definition is_ws (a : ascii) : bool :=
  match a with
  | " " | "009" | "010" | "013" => true
  | _ => false
  end.

Fixpoint skip_ws (s : list ascii) : list ascii :=
  match s with
  | a :: s' => if is_ws a then skip_ws s' else s
  | [] => []
  end.

Definition is_digit (a : ascii) : bool :=
  let n := nat_of_ascii a in ((48 <=? n) && (n <=? 57))%nat.

Fixpoint span (p : ascii -> bool) (s : list ascii) : list ascii * list ascii :=
  match s with
  | a :: s' => if p a then let '(l, r) := span p s' in (a :: l, r) else ([], s)
  | [] => ([], [])
  end.

Definition digits_value (ds : list ascii) : Z :=
  fold_left (fun acc d => (10 * acc + (Z.of_nat (nat_of_ascii d) - 48))%Z) ds 0%Z.

Definition unescape (e : ascii) : option ascii :=
  match e with
  | "034" => Some "034"
  | "\" => Some "\"
  | "/" => Some "/"
  | "b" => Some "008"
  | "f" => Some "012"
  | "n" => Some "010"
  | "r" => Some "013"
  | "t" => Some "009"
  | _ => None
  end.

(** The text after an opening quote, up to the closing one. *)
Fixpoint string_body (s acc : list ascii) : option (string * list ascii) :=
  match s with
  | [] => None
  | a :: r =>
      if Ascii.eqb a dquote then Some (string_of_list_ascii (rev acc), r)
      else if Ascii.eqb a "\" then
        match r with
        | e :: r' =>
            match unescape e with
            | Some c => string_body r' (c :: acc)
            | None => None
            end
        | [] => None
        end
      else if (nat_of_ascii a <? 32)%nat then None
      else string_body r (a :: acc)
  end.

(** A number: an optional sign, an integer part without a leading zero,
    an optional fraction and an optional exponent. Without fraction and
    exponent it is an [int]. *)
Definition number (s : list ascii) : option (json * list ascii) :=
  let '(neg, r0) := match s with "-" :: r => (true, r) | _ => (false, s) end in
  let '(ip, r1) :=
    match r0 with
    | "0" :: r => (["0"], r)
    | _ => span is_digit r0
    end in
  match ip with
  | [] => None
  | _ =>
      let '(fp, r2) :=
        match r1 with
        | "." :: r =>
            let '(ds, r') := span is_digit r in
            match ds with [] => ([], r1) | _ => ("." :: ds, r') end
        | _ => ([], r1)
        end in
      let '(ep, r3) :=
        match r2 with
        | e :: r =>
            if Ascii.eqb e "e" || Ascii.eqb e "E" then
              let '(sg, r') :=
                match r with
                | "+" :: t => (["+"], t)
                | "-" :: t => (["-"], t)
                | _ => ([], r)
                end in
              let '(ds, r'') := span is_digit r' in
              match ds with [] => ([], r2) | _ => (e :: sg ++ ds, r'') end
            else ([], r2)
        | [] => ([], r2)
        end in
      match fp, ep with
      | [], [] =>
          let v := digits_value ip in
          Some (JInt (if neg then (- v)%Z else v), r3)
      | _, _ =>
          Some (JFloat (string_of_list_ascii
                          ((if neg then ["-"] else []) ++ ip ++ fp ++ ep)), r3)
      end
  end.

Definition keyword (w : string) (v : json) (s : list ascii)
  : option (json * list ascii) :=
  let l := list_ascii_of_string w in
  if decide (take (length l) s = l) then Some (v, drop (length l) s) else None.

Fixpoint value (fuel : nat) (s : list ascii) : option (json * list ascii) :=
  match fuel with
  | O => None
  | S f =>
      match s with
      | "{" :: r =>
          match skip_ws r with
          | "}" :: r' => Some (JObj [], r')
          | r' => members f r' []
          end
      | "[" :: r =>
          match skip_ws r with
          | "]" :: r' => Some (JArr [], r')
          | r' => elements f r' []
          end
      | "034" :: r =>
          match string_body r [] with
          | Some (t, r') => Some (JStr t, r')
          | None => None
          end
      | "t" :: _ => keyword "true" (JBool true) s
      | "f" :: _ => keyword "false" (JBool false) s
      | "n" :: _ => keyword "null" JNull s
      | _ => number s
      end
  end
with members (fuel : nat) (s : list ascii) (acc : dict)
  : option (json * list ascii) :=
  match fuel with
  | O => None
  | S f =>
      match s with
      | "034" :: r =>
          match string_body r [] with
          | Some (key, r1) =>
              match skip_ws r1 with
              | ":" :: r2 =>
                  match value f (skip_ws r2) with
                  | Some (v, r3) =>
                      match skip_ws r3 with
                      | "," :: r4 => members f (skip_ws r4) (Dict.set key v acc)
                      | "}" :: r4 => Some (JObj (Dict.set key v acc), r4)
                      | _ => None
                      end
                  | None => None
                  end
              | _ => None
              end
          | None => None
          end
      | _ => None
      end
  end
with elements (fuel : nat) (s : list ascii) (acc : list json)
  : option (json * list ascii) :=
  match fuel with
  | O => None
  | S f =>
      match value f s with
      | Some (v, r) =>
          match skip_ws r with
          | "," :: r' => elements f (skip_ws r') (acc ++ [v])
          | "]" :: r' => Some (JArr (acc ++ [v]), r')
          | _ => None
          end
      | None => None
      end
  end.

(** [json.loads(text)]: one value, then nothing but white space. *)
Definition loads (text : string) : option json :=
  let s := list_ascii_of_string text in
  match value (S (length s)) (skip_ws s) with
  | Some (v, r) => match skip_ws r with [] => Some v | _ => None end
  | None => None
  end.

End JsonReader.

(** A double quote, to write JSON documents down. *)
Definition dq : string := String JsonReader.dquote EmptyString.

(** ** The outside world *)

(** What [subprocess.run(cmd, capture_output=True, text=True, ...)] can
    lead to: a finished child, [TimeoutExpired] when a timeout was given,
    or an [OSError] when the child could not be started. *)
Inductive run_outcome : Type :=
| Completed (returncode : Z) (stdout stderr : string)
| TimedOut
| LaunchFailed.

Record world : Type := {
  (* subprocess.run: the command line and the timeout in seconds *)
  subprocess_run : list string -> option Z -> run_outcome;
  (* the text of mcp-servers/templates/_template.json, if it can be read *)
  template_text : option string;
  (* datetime.now().isoformat() *)
  now_isoformat : string;
  (* Path(__file__).parent.parent.parent and tempfile.mkdtemp(...) *)
  claude_hq_dir : string;
  temp_dir : string
}.

Record completed : Type := {
  returncode : Z;
  stdout : string;
  stderr : string
}.

Definition run (w : world) (cmd : list string) (timeout : option Z)
  : result completed :=
  match subprocess_run w cmd timeout with
  | Completed rc out err => Ok {| returncode := rc; stdout := out; stderr := err |}
  | TimedOut => Raise TimeoutExpired
  | LaunchFailed => Raise OSError
  end.

(** The clauses [except subprocess.TimeoutExpired] and
    [except json.JSONDecodeError]. *)
Definition is_timeout (e : exn) : bool :=
  match e with TimeoutExpired => true | _ => false end.

Definition is_decode_error (e : exn) : bool :=
  match e with JSONDecodeError => true | _ => false end.

(** ** Operations on dynamically typed values *)

Module Dyn.

(** [x[k]] for a string key *)
Definition getitem (x : json) (k : string) : result json :=
  match x with
  | JObj d =>
      match Dict.get k d with
      | Some v => Ok v
      | None => Raise (KeyError k)
      end
  | _ => Raise TypeError
  end.

(** [x[k] = v] for a string key *)
Definition setitem (x : json) (k : string) (v : json) : result json :=
  match x with
  | JObj d => Ok (JObj (Dict.set k v d))
  | _ => Raise TypeError
  end.

(** [x[k1][k2] = v]: the inner mapping is updated in place, so the outer
    one sees the change. *)
Definition setitem2 (x : json) (k1 k2 : string) (v : json) : result json :=
  inner ← getitem x k1;
  inner' ← setitem inner k2 v;
  setitem x k1 inner'.

(** [k in x] for a string [k] *)
Definition contains (k : string) (x : json) : result bool :=
  match x with
  | JObj d => Ok (Dict.mem k d)
  | JArr l =>
      Ok (existsb (fun y => match y with JStr t => String.eqb t k | _ => false end) l)
  | JStr t => Ok (Py.contains k t)
  | _ => Raise TypeError
  end.

(** [x.get(k, default)] *)
Definition get (x : json) (k : string) (default : json) : result json :=
  match x with
  | JObj d => Ok (match Dict.get k d with Some v => v | None => default end)
  | _ => Raise AttributeError
  end.

(** [len(x)] *)
Definition len (x : json) : result nat :=
  match x with
  | JObj d => Ok (length d)
  | JArr l => Ok (length l)
  | JStr t => Ok (String.length t)
  | _ => Raise TypeError
  end.

Definition all_str (l : list json) : bool :=
  forallb (fun y => match y with JStr _ => true | _ => false end) l.

(** Whether [', '.join(x)] goes through: an iterable of strings. *)
Definition joinable (x : json) : result unit :=
  match x with
  | JObj _ | JStr _ => Ok tt
  | JArr l => if all_str l then Ok tt else Raise TypeError
  | _ => Raise TypeError
  end.

End Dyn.

(** ** Response extraction, parametric in the JSON library *)

Section Extractor.

(** [json.loads]: [None] stands for [JSONDecodeError]. *)
Variable json_loads : string -> option json.
Definition loads (text : string) : result json :=
  match json_loads text with
  | Some v => Ok v
  | None => Raise JSONDecodeError
  end.

(** The response recovery every caller of an external tool repeats:

<<
    start_idx = response.find('{')
    end_idx = response.rfind('}') + 1
    if start_idx >= 0 and end_idx > start_idx:
        json_str = response[start_idx:end_idx]
        ... json.loads(json_str)
    else:
        ...
>>
    [Ok (Some v)] is the parsed value, [Ok None] the [else] branch, and a
    parse error is the [JSONDecodeError] that [json.loads] raises. *)
Definition extract_json (response : string) : result (option json) :=
  let start_idx := Py.find response "{"%char in
  let end_idx := (Py.rfind response "}"%char + 1)%Z in
  if (start_idx >=? 0)%Z && (end_idx >? start_idx)%Z then
    let json_str := Py.slice response start_idx end_idx in
    v ← loads json_str; Ok (Some v)
  else Ok None.


End Extractor.

(** ** nu/analyze_mcp_repository.py *)

Module Nu.

Record analyzer : Type := {
  available_agents : gmap string bool;
  selected_agent : string
}.

Definition templates_dir (w : world) : string :=
  claude_hq_dir w ++ "/mcp-servers/templates".

Definition active_dir (w : world) : string :=
  claude_hq_dir w ++ "/mcp-servers/active".

(** One probe of [_detect_agents]: [which name] returned 0; any exception
    counts as not available. *)
Definition probe (w : world) (name : string) : bool :=
  match run w ["which"; name] None with
  | Ok r => (returncode r =? 0)%Z
  | Raise _ => false
  end.

Definition _detect_agents (w : world) : gmap string bool :=
  let agents : gmap string bool := ∅ in
  let agents := <["gemini" := probe w "gemini"]> agents in
  let agents := <["codex" := probe w "codex"]> agents in
  let agents := <["claude" := true]> agents in
  agents.

(** [available_agents.get(name, False)] *)
Definition available (agents : gmap string bool) (name : string) : bool :=
  default false (agents !! name).

Definition _select_best_agent (agents : gmap string bool) : string :=
  if available agents "gemini" then "gemini"
  else if available agents "codex" then "codex"
  else "claude".

Definition init (w : world) : analyzer :=
  let agents := _detect_agents w in
  {| available_agents := agents; selected_agent := _select_best_agent agents |}.

Definition _parse_github_url := Url._parse_github_url.

(** How an f-string shows an [Optional[str]]. *)
Definition fmt (o : option string) : string :=
  match o with Some t => t | None => "None" end.

Section WithJson.

Variable json_loads : string -> option json.
Variable json_dumps : json -> string.

(** The placeholder summary of a failed ingestion. *)
Definition degraded_summary (owner repo reason : string) : json :=
  JObj [ ("name", JStr (owner ++ "/" ++ repo));
         ("description", JStr reason);
         ("files", JArr []);
         ("token_count", JInt 0) ].

Definition raw_json_only : string :=
  "Return only the raw JSON response from the tool, no additional text or formatting.".

Definition summary_cmd (owner repo : string) : list string :=
  [ "claude"; "-p";
    "Use GitIngest MCP git_summary tool to analyze repository "
      ++ owner ++ "/" ++ repo ++ ". " ++ raw_json_only ].

Definition _get_repository_summary (w : world) (owner repo : string) : result json :=
  let cmd := summary_cmd owner repo in
  try_except
    (result ← run w cmd (Some 60%Z);
     if (returncode result =? 0)%Z then
       let response := Py.strip (stdout result) in
       found ← extract_json json_loads response;
       match found with
       | Some v => Ok v
       | None => Ok (degraded_summary owner repo "Analysis failed")
       end
     else Ok (degraded_summary owner repo "GitIngest call failed"))
    (fun e =>
       if is_timeout e then Some (Ok (degraded_summary owner repo "Analysis timed out"))
       else if is_decode_error e then
         Some (Ok (degraded_summary owner repo "JSON parse failed"))
       else None).

Definition empty_tree : json := JObj [ ("tree", JArr []) ].

Definition _get_repository_tree (w : world) (owner repo : string) : result json :=
  let cmd :=
    [ "claude"; "-p";
      "Use GitIngest MCP git_tree tool to get the tree structure of repository "
        ++ owner ++ "/" ++ repo ++ ". " ++ raw_json_only ] in
  try_except
    (result ← run w cmd (Some 60%Z);
     if (returncode result =? 0)%Z then
       let response := Py.strip (stdout result) in
       found ← extract_json json_loads response;
       match found with
       | Some v => Ok v
       | None => Ok empty_tree
       end
     else Ok empty_tree)
    (fun e => if is_timeout e || is_decode_error e then Some (Ok empty_tree) else None).

(** *** Key-file selection *)

Definition priority_patterns : list string :=
  [ "package.json"; "README.md"; "src/index.ts"; "src/index.js";
    "src/server.ts"; "src/server.js"; "src/main.ts"; "src/main.js";
    "index.ts"; "index.js"; "server.ts"; "server.js"; "mcp.json";
    "tsconfig.json"; "src/types.ts"; "src/types.d.ts"; "src/tools/";
    "src/resources/"; "lib/index.ts"; "lib/index.js"; "dist/index.js";
    "Dockerfile"; "docker-compose.yml"; "docs/README.md"; "docs/API.md";
    "docs/api.md"; "CHANGELOG.md"; "LICENSE" ].

(** [if '/' in pattern] *)
Definition is_dir_pattern (pattern : string) : bool :=
  Py.has_char "/"%char pattern.

(** The test of either inner loop on a path that is a string:
    [pattern in file_path], or [file_path.endswith(pattern)]. *)
Definition matches (pattern file_path : string) : bool :=
  if is_dir_pattern pattern then Py.contains pattern file_path
  else Py.endswith file_path pattern.

(** [file_path in key_files] *)
Definition listed (file_path : string) (key_files : list string) : bool :=
  existsb (String.eqb file_path) key_files.

(** One inner loop. A path that is not a string has no [endswith]
    (AttributeError); the first pattern is a suffix pattern, so such a
    path never reaches a directory pattern. *)
Fixpoint scan (pattern : string) (tree_files : list json) (key_files : list string)
  : result (list string) :=
  match tree_files with
  | [] => Ok key_files
  | JStr file_path :: rest =>
      if matches pattern file_path && negb (listed file_path key_files)
      then scan pattern rest (key_files ++ [file_path])
      else scan pattern rest key_files
  | _ :: _ => Raise (if is_dir_pattern pattern then TypeError else AttributeError)
  end.

(** [for pattern in priority_patterns: ...] *)
Fixpoint select (patterns : list string) (tree_files : list json)
    (key_files : list string) : result (list string) :=
  match patterns with
  | [] => Ok key_files
  | pattern :: rest =>
      key_files' ← scan pattern tree_files key_files;
      select rest tree_files key_files'
  end.

(** The same two loops on paths that are all strings, where nothing can
    raise. *)
Fixpoint scan_str (pattern : string) (tree_files key_files : list string)
  : list string :=
  match tree_files with
  | [] => key_files
  | file_path :: rest =>
      if matches pattern file_path && negb (listed file_path key_files)
      then scan_str pattern rest (key_files ++ [file_path])
      else scan_str pattern rest key_files
  end.

Fixpoint select_str (patterns tree_files key_files : list string) : list string :=
  match patterns with
  | [] => key_files
  | pattern :: rest => select_str rest tree_files (scan_str pattern tree_files key_files)
  end.

(** [key in x and isinstance(x[key], list)], and then [x[key]] *)
Definition list_under (key : string) (x : json) : result (list json) :=
  present ← Dyn.contains key x;
  if present : bool then
    v ← Dyn.getitem x key;
    Ok (match v with JArr l => l | _ => [] end)
  else Ok [].

(** [item['path']] of the items that are mappings with a path *)
Definition paths_of (items : list json) : list json :=
  flat_map (fun item =>
              match item with
              | JObj d => match Dict.get "path" d with Some v => [v] | None => [] end
              | _ => []
              end) items.

Definition collect_tree_files (repo_tree repo_summary : json) : result (list json) :=
  items ← list_under "tree" repo_tree;
  files ← list_under "files" repo_summary;
  Ok (paths_of items ++ files)%list.

Definition _identify_key_files (repo_tree repo_summary : json)
  : result (list string) :=
  tree_files ← collect_tree_files repo_tree repo_summary;
  key_files ← select priority_patterns tree_files [];
  Ok (take 15 key_files).

(** *** File contents *)

(** [for file_path in file_paths: if file_path in files_data:
    file_contents[file_path] = files_data[file_path]] *)
Fixpoint copy_requested (file_paths : list string) (files_data : dict)
    (file_contents : dict) : dict :=
  match file_paths with
  | [] => file_contents
  | file_path :: rest =>
      match Dict.get file_path files_data with
      | Some v => copy_requested rest files_data (Dict.set file_path v file_contents)
      | None => copy_requested rest files_data file_contents
      end
  end.

Definition files_cmd (owner repo : string) (file_paths : list string)
  : list string :=
  let file_paths_json := json_dumps (JArr (map JStr file_paths)) in
  [ "claude"; "-p";
    "Use GitIngest MCP git_files tool to get contents of files "
      ++ file_paths_json ++ " from repository " ++ owner ++ "/" ++ repo
      ++ ". Return only the raw JSON response from the tool, "
      ++ "no additional text or formatting." ].

Definition _extract_file_contents (w : world) (owner repo : string)
    (file_paths : list string) : result dict :=
  match file_paths with
  | [] => Ok []
  | _ =>
      let cmd := files_cmd owner repo file_paths in
      try_except
        (result ← run w cmd (Some 120%Z);
         if (returncode result =? 0)%Z then
           let response := Py.strip (stdout result) in
           found ← extract_json json_loads response;
           match found with
           | Some files_data =>
               Ok (match files_data with
                   | JObj d => copy_requested file_paths d []
                   | _ => []
                   end)
           | None => Ok []
           end
         else Ok [])
        (fun e => if is_timeout e || is_decode_error e then Some (Ok []) else None)
  end.

(** *** Configuration synthesis *)

Record analysis_context : Type := {
  (* "repository" *)
  ctx_owner : option string;
  ctx_repo : option string;
  ctx_url : string;
  ctx_server_name : string;
  (* "gitingest_data" *)
  ctx_summary : json;
  ctx_tree : json;
  ctx_files : dict;
  (* "analysis_metadata" *)
  ctx_timestamp : string;
  ctx_analyzer : string;
  ctx_key_files_count : nat;
  ctx_available_agents : gmap string bool
}.

Definition nl : string := String "010"%char EmptyString.

Definition _create_analysis_prompt (context : analysis_context)
    (template_path : string) : string :=
  nl ++ "You are an expert MCP (Model Context Protocol) server analyst. Analyze the repository data from GitIngest MCP and generate a comprehensive, accurate MCP server configuration JSON." ++ nl
  ++ nl
  ++ "REPOSITORY: " ++ fmt (ctx_owner context) ++ "/" ++ fmt (ctx_repo context) ++ nl
  ++ "URL: " ++ ctx_url context ++ nl
  ++ "SERVER NAME: " ++ ctx_server_name context ++ nl
  ++ nl
  ++ "ANALYSIS TASK:" ++ nl
  ++ "1. Review the GitIngest repository summary, tree structure, and file contents" ++ nl
  ++ "2. Extract accurate information about tools, resources, and capabilities" ++ nl
  ++ "3. Determine deployment options and requirements" ++ nl
  ++ "4. Generate automation recommendations and integration points" ++ nl
  ++ "5. Create a complete MCP server configuration JSON following the template structure" ++ nl
  ++ nl
  ++ "KEY ANALYSIS AREAS:" ++ nl
  ++ "- Extract actual tool definitions from source code (look for tool names, descriptions, parameters)" ++ nl
  ++ "- Identify resource definitions and URI templates" ++ nl
  ++ "- Determine authentication requirements and API keys needed" ++ nl
  ++ "- Analyze package.json for dependencies and deployment info" ++ nl
  ++ "- Review README for use cases and documentation quality" ++ nl
  ++ "- Assess deployment options (Smithery, local, Docker, NPM)" ++ nl
  ++ "- Generate appropriate automation workflows and triggers" ++ nl
  ++ nl
  ++ "TEMPLATE REFERENCE: " ++ template_path ++ nl
  ++ nl
  ++ "OUTPUT REQUIREMENTS:" ++ nl
  ++ "- Return ONLY valid JSON matching the template structure" ++ nl
  ++ "- Use actual data extracted from repository analysis" ++ nl
  ++ "- Ensure all tool names, descriptions, and parameters are accurate" ++ nl
  ++ "- Include realistic use cases based on the code analysis" ++ nl
  ++ "- Set appropriate deployment configurations based on repository structure" ++ nl
  ++ "- Generate meaningful automation instructions and triggers" ++ nl
  ++ nl
  ++ "Begin analysis and return the complete JSON configuration:" ++ nl.

(** [with open(templates_dir / "_template.json") as f: json.load(f)] *)
Definition load_template (w : world) : result json :=
  match template_text w with
  | Some text => loads json_loads text
  | None => Raise OSError
  end.

Definition _fallback_config (w : world) : result json :=
  template ← load_template w;
  template ← Dyn.setitem2 template "metadata" "analysis_date"
               (JStr (now_isoformat w));
  template ← Dyn.setitem2 template "metadata" "generated_by"
               (JStr "fallback_generator");
  Ok template.

(** The body shared by [_generate_with_gemini] and [_generate_with_codex]:
    only the command line differs. *)
Definition generate_with_cli (w : world) (cmd : list string) : result json :=
  try_except
    (result ← run w cmd (Some 300%Z);
     if (returncode result =? 0)%Z then
       let response := Py.strip (stdout result) in
       found ← extract_json json_loads response;
       match found with
       | Some v => Ok v
       | None => _fallback_config w
       end
     else _fallback_config w)
    (fun e => if is_timeout e || is_decode_error e
              then Some (_fallback_config w) else None).

Definition _generate_with_gemini (w : world) (prompt context_file : string)
  : result json :=
  (* the prompt, followed by the context file's name, goes to a scratch file *)
  let prompt_file := temp_dir w ++ "/gemini_prompt.txt" in
  generate_with_cli w ["gemini"; "-y"; "-p"; "architect"; "-f"; prompt_file].

Definition _generate_with_codex (w : world) (prompt context_file : string)
  : result json :=
  generate_with_cli w ["codex"; "-p"; prompt].

Definition _generate_with_claude (w : world) (prompt : string)
    (context : analysis_context) : result json :=
  _fallback_config w.

Definition _generate_config_with_agent (w : world) (self : analyzer)
    (context : analysis_context) : result json :=
  let context_file := temp_dir w ++ "/analysis_context.json" in
  (* the template is read once here, for its scratch copy *)
  _ ← load_template w;
  let template_file_temp := temp_dir w ++ "/template.json" in
  let prompt := _create_analysis_prompt context template_file_temp in
  if String.eqb (selected_agent self) "gemini" then
    _generate_with_gemini w prompt context_file
  else if String.eqb (selected_agent self) "codex" then
    _generate_with_codex w prompt context_file
  else _generate_with_claude w prompt context.

(** *** The run *)

Definition analyze_repository (w : world) (self : analyzer)
    (github_url server_name : string) : result json :=
  let '(owner, repo) := _parse_github_url github_url in
  (* if not owner or repo: *)
  if negb (Py.truthy owner) || Py.truthy repo then
    Raise (ValueError ("Invalid GitHub URL: " ++ github_url))
  else
    repo_summary ← _get_repository_summary w (fmt owner) (fmt repo);
    repo_tree ← _get_repository_tree w (fmt owner) (fmt repo);
    key_files ← _identify_key_files repo_tree repo_summary;
    file_contents ← _extract_file_contents w (fmt owner) (fmt repo) key_files;
    let context :=
      {| ctx_owner := owner; ctx_repo := repo; ctx_url := github_url;
         ctx_server_name := server_name;
         ctx_summary := repo_summary; ctx_tree := repo_tree;
         ctx_files := file_contents;
         ctx_timestamp := now_isoformat w;
         ctx_analyzer := "GitIngest + " ++ selected_agent self;
         ctx_key_files_count := length key_files;
         ctx_available_agents := available_agents self |} in
    _generate_config_with_agent w self context.

Definition save_path (w : world) (server_name : string) : string :=
  active_dir w ++ "/" ++ server_name ++ ".json".

Record args : Type := {
  github_url : string;
  server_name : string;
  output : option string;      (* --output / -o *)
  agent : option string        (* --agent *)
}.

(** What a run leaves behind: its exit status and the records written. *)
Record outcome : Type := {
  exit_code : Z;
  written : list (string * json)
}.

(** The three summary lines printed after the record is saved. *)
Definition report (config : json) : result unit :=
  metadata ← Dyn.get config "metadata" (JObj []);
  tools ← Dyn.get metadata "tools" (JArr []);
  _ ← Dyn.len tools;
  tags ← Dyn.get metadata "tags" (JArr []);
  _ ← Dyn.joinable tags;
  _ ← Dyn.get metadata "priority_deployment" (JStr "unknown");
  Ok tt.

Definition main (w : world) (a : args) : outcome :=
  let analyzer := init w in
  let analyzer :=
    match agent a with
    | Some name =>
        if available (available_agents analyzer) name
        then {| available_agents := available_agents analyzer;
                selected_agent := name |}
        else analyzer
    | None => analyzer
    end in
  match analyze_repository w analyzer (github_url a) (server_name a) with
  | Raise _ => {| exit_code := 1; written := [] |}
  | Ok config =>
      let output_path :=
        if Py.truthy (output a) then fmt (output a)
        else save_path w (server_name a) in
      match report config with
      | Ok _ => {| exit_code := 0; written := [(output_path, config)] |}
      | Raise _ => {| exit_code := 1; written := [(output_path, config)] |}
      end
  end.

End WithJson.
End Nu.

(** ** scripts/analyze_mcp_server_repo.py *)

Module Scripts.

Definition _parse_github_url := Url._parse_github_url.

Section Analyze.

(** Steps 1 to 5 of [analyze_server_repository], from the resolved owner
    and project, the URL and the server name to the configuration. *)
Context {config : Type} (steps_1_to_5 : string -> string -> string -> string -> config).

Definition analyze_server_repository (github_url server_name : string)
  : result config :=
  let '(owner, repo) := _parse_github_url github_url in
  (* if not owner or not repo: *)
  if negb (Py.truthy owner) || negb (Py.truthy repo) then
    Raise (ValueError ("Invalid GitHub URL: " ++ github_url))
  else
    Ok (steps_1_to_5 (Nu.fmt owner) (Nu.fmt repo) github_url server_name).

End Analyze.

Definition priority_files : list string :=
  [ "package.json"; "README.md"; "src/index.ts"; "src/index.js";
    "src/server.ts"; "src/server.js"; "index.ts"; "index.js"; "mcp.json";
    "tsconfig.json"; "Dockerfile"; "docker-compose.yml";
    ".github/workflows/deploy.yml"; ".github/workflows/publish.yml";
    "docs/README.md"; "docs/api.md"; "CHANGELOG.md"; "LICENSE" ].

Definition _identify_key_files : list string := take 10 priority_files.

(** A placeholder text per requested path. *)
Definition _extract_file_contents (owner repo : string) (file_paths : list string)
  : gmap string string :=
  list_to_map
    (map (fun path => (path, "Content of " ++ path ++ " would be extracted here"))
         file_paths).

(** [{"available": b}] *)
Definition availability (b : bool) : gmap string bool := {[ "available" := b ]}.

(** [deployment[name]["available"] = True] *)
Definition mark_available (name : string) (deployment : gmap string (gmap string bool))
  : gmap string (gmap string bool) :=
  <[ name := <[ "available" := true ]> (default ∅ (deployment !! name)) ]> deployment.

(** [key in file_contents] *)
Definition has_file (key : string) (file_contents : gmap string string) : bool :=
  bool_decide (is_Some (file_contents !! key)).

Definition _analyze_deployment_options (file_contents : gmap string string)
  : gmap string (gmap string bool) :=
  let deployment : gmap string (gmap string bool) :=
    <[ "npm" := availability false ]>
      (<[ "docker" := availability false ]>
         (<[ "local" := availability false ]>
            (<[ "smithery" := availability false ]> ∅))) in
  let deployment :=
    if has_file "package.json" file_contents
    then mark_available "local" (mark_available "npm" deployment)
    else deployment in
  let deployment :=
    if has_file "Dockerfile" file_contents || has_file "docker-compose.yml" file_contents
    then mark_available "docker" deployment
    else deployment in
  mark_available "smithery" deployment.

(** [deployment_info.get(name, {}).get("available")], as a condition *)
Definition is_available (deployment_info : gmap string (gmap string bool))
    (name : string) : bool :=
  default false (default ∅ (deployment_info !! name) !! "available").

Definition _determine_priority_deployment
    (deployment_info : gmap string (gmap string bool)) : string :=
  if is_available deployment_info "smithery" then "smithery"
  else if is_available deployment_info "npm" then "npm"
  else if is_available deployment_info "local" then "local"
  else if is_available deployment_info "docker" then "docker"
  else "manual".

(** The value a run stores under [metadata.priority_deployment]. *)
Definition priority_deployment_of_run (owner repo : string) : string :=
  let key_files := _identify_key_files in
  let file_contents := _extract_file_contents owner repo key_files in
  let deployment_info := _analyze_deployment_options file_contents in
  _determine_priority_deployment deployment_info.

End Scripts.

(** ** Sample documents and worlds, to run the scripts on *)

Module Sample.

(** A template with the seven sections. *)
Definition template : string :=
  "{" ++ dq ++ "metadata" ++ dq ++ ": {" ++ dq ++ "server_id" ++ dq ++ ": "
      ++ dq ++ "server-name" ++ dq ++ ", " ++ dq ++ "tools" ++ dq ++ ": []}, "
  ++ dq ++ "deployment" ++ dq ++ ": {" ++ dq ++ "smithery" ++ dq ++ ": {}}, "
  ++ dq ++ "automation" ++ dq ++ ": {" ++ dq ++ "enabled" ++ dq ++ ": false}, "
  ++ dq ++ "integration" ++ dq ++ ": {" ++ dq ++ "mcp_servers" ++ dq ++ ": []}, "
  ++ dq ++ "security" ++ dq ++ ": {" ++ dq ++ "methods" ++ dq ++ ": []}, "
  ++ dq ++ "monitoring" ++ dq ++ ": {" ++ dq ++ "timeout" ++ dq ++ ": 5000}, "
  ++ dq ++ "maintenance" ++ dq ++ ": {" ++ dq ++ "backup_required" ++ dq ++ ": false}}".

Definition world_with (runs : list string -> option Z -> run_outcome) : world :=
  {| subprocess_run := runs;
     template_text := Some template;
     now_isoformat := "2025-06-01T12:00:00";
     claude_hq_dir := "/srv/claude-hq";
     temp_dir := "/tmp/mcp_analysis_k3" |}.

(** No tool is installed: every command ends with status 1. *)
Definition offline : world :=
  world_with (fun _ _ => Completed 1 "" "command not found").


(** Every command answers in prose. *)
Definition chatty : world :=
  world_with (fun _ _ => Completed 0 "I could not reach the repository." "").

(** Every command answers with an object that is cut short. *)
Definition garbled : world :=
  world_with (fun _ _ =>
                Completed 0 ("Here it is: {" ++ dq ++ "name" ++ dq ++ ": }") "").

(** The ingestion answers with two files, one of them not asked for. *)
Definition generous : world :=
  world_with (fun _ _ =>
                Completed 0
                  ("Result: {" ++ dq ++ "src/index.ts" ++ dq ++ ": " ++ dq
                   ++ "export {}" ++ dq ++ ", " ++ dq ++ ".env" ++ dq ++ ": "
                   ++ dq ++ "TOKEN=1" ++ dq ++ "} done.") "").

(** A tree of three entries, and the same entries the other way round
    together with a summary that repeats one of them. *)
Definition entry (path : string) : json := JObj [("path", JStr path)].

Definition tree : json :=
  JObj [("tree", JArr [ entry "x/package.json"; entry "README.md";
                        entry "src/tools/a.ts" ])].

Definition tree_reversed : json :=
  JObj [("tree", JArr [ entry "src/tools/a.ts"; entry "notes.txt";
                        entry "README.md"; entry "x/package.json" ])].

Definition summary : json :=
  JObj [ ("name", JStr "acme/widget-mcp"); ("description", JStr "A widget server");
         ("files", JArr [JStr "README.md"; JStr "LICENSE"]);
         ("token_count", JInt 1200) ].

(** [a/package.json], [b/package.json], ... *)
Definition package_names (n : nat) : list string :=
  map (fun i => String (ascii_of_nat (97 + i)) "/package.json") (seq 0 n).

(** A [json.dumps] for lists of plain names. *)
Definition dumps_names (v : json) : string :=
  match v with
  | JArr l =>
      "[" ++ String.concat ", "
               (map (fun y => match y with
                              | JStr t => dq ++ t ++ dq
                              | _ => "null"
                              end) l) ++ "]"
  | _ => "null"
  end.

End Sample.

(** ** The specification's wording, for comparison with the code *)

Module Spec.





(** The position of a path in the priority list: the index of the first
    pattern it matches. *)
Fixpoint rank_in (patterns : list string) (file_path : string) : nat :=
  match patterns with
  | [] => 0
  | p :: ps => if Nu.matches p file_path then 0 else S (rank_in ps file_path)
  end.

Definition rank : string -> nat := rank_in Nu.priority_patterns.


(** The order of the priority list [all] on paths. *)
Definition rank_le (all : list string) (a b : string) : Prop :=
  rank_in all a <= rank_in all b.

(** What holds of the selection once the patterns [done] of the priority
    list [all] are through. *)
Record selected (all tree_files done key_files : list string) : Prop := {
  sel_nodup : NoDup key_files;
  sel_sound : forall f, f ∈ key_files ->
                f ∈ tree_files /\ exists p, p ∈ done /\ Nu.matches p f = true;
  sel_complete : forall f p, f ∈ tree_files -> p ∈ done -> Nu.matches p f = true ->
                   f ∈ key_files;
  sel_sorted : StronglySorted (rank_le all) key_files
}.

(** The seven top-level sections of a configuration record. *)
Definition sections : list string :=
  [ "metadata"; "deployment"; "automation"; "integration"; "security";
    "monitoring"; "maintenance" ].

Definition is_mapping (o : option json) : bool :=
  match o with Some (JObj _) => true | _ => false end.

Definition has_sections (record : dict) : bool :=
  forallb (fun k => is_mapping (Dict.get k record)) sections.

(** The precedence of the deployment choice as the specification words
    it: the publishable-package indicator, then the docker indicators,
    then any deployment signal at all (the choice among those is left
    open, [None] here), and manual without any signal. *)
Definition claimed_priority (deployment_info : gmap string (gmap string bool))
  : option string :=
  if Scripts.is_available deployment_info "npm" then Some "npm"
  else if Scripts.is_available deployment_info "docker" then Some "docker"
  else if existsb (Scripts.is_available deployment_info) ["smithery"; "local"]
  then None
  else Some "manual".

(** What the fallback may change in a template: two keys of its metadata
    section, and nothing else. *)
Definition stamped_from (template : dict) (metadata : dict) (timestamp : string)
    (out : dict) : Prop :=
  exists stamped,
    Dict.get "metadata" out = Some (JObj stamped)
    /\ Dict.get "analysis_date" stamped = Some (JStr timestamp)
    /\ Dict.get "generated_by" stamped = Some (JStr "fallback_generator")
    /\ (forall k, k <> "analysis_date" -> k <> "generated_by" ->
                  Dict.get k stamped = Dict.get k metadata)
    /\ (forall k, k <> "metadata" -> Dict.get k out = Dict.get k template)
    /\ Dict.keys out = Dict.keys template
    /\ (has_sections template = true -> has_sections out = true).

End Spec.

(** ** Further parts of the nu script *)

Module NuCli.


(** The analyzer [main] works with: the one [MCPRepositoryAnalyzer()]
    builds, with the selection replaced by [--agent] when that backend is
    marked available. *)
Definition configure (w : world) (a : Nu.args) : Nu.analyzer :=
  let analyzer := Nu.init w in
  match Nu.agent a with
  | Some name =>
      if Nu.available (Nu.available_agents analyzer) name
      then {| Nu.available_agents := Nu.available_agents analyzer;
              Nu.selected_agent := name |}
      else analyzer
  | None => analyzer
  end.

(** The command lines of the two external generators. *)
Definition gemini_cmd (w : world) : list string :=
  ["gemini"; "-y"; "-p"; "architect"; "-f"; temp_dir w ++ "/gemini_prompt.txt"].

Definition codex_cmd (prompt : string) : list string := ["codex"; "-p"; prompt].

(** A world in which gemini is installed and answers with an object. *)
Definition with_gemini : world :=
  Sample.world_with
    (fun cmd _ =>
       match cmd with
       | "which" :: "gemini" :: _ => Completed 0 "/usr/bin/gemini" ""
       | "gemini" :: _ =>
           Completed 0 ("Sure: {" ++ dq ++ "metadata" ++ dq ++ ": {" ++ dq
                        ++ "server_id" ++ dq ++ ": " ++ dq ++ "widget" ++ dq
                        ++ "}}") ""
       | _ => Completed 1 "" ""
       end).

End NuCli.

(** ** The forms of a repository URL *)

Module UrlForms.
Import Re.

Definition chars : string -> list ascii := list_ascii_of_string.

Definition newline : ascii := "010"%char.

Definition dot_git : list ascii := chars ".git".

(** [s] is [u ++ ".git"] for a non-empty [u]. *)
Fixpoint ends_dot_git (s : list ascii) : bool :=
  match s with
  | [] => false
  | _ :: s' => bool_decide (s' = dot_git) || ends_dot_git s'
  end.

(** A path segment: not empty, no slash. *)
Definition segment (s : string) : bool :=
  negb (String.eqb s "") && negb (Py.has_char Url.slash s).

(** A project name that the plain pattern gives back as it is: a segment
    without a newline that does not end in [.git] after something. *)
Definition project (s : string) : bool :=
  segment s && negb (Py.has_char newline s) && negb (ends_dot_git (chars s)).

(** [s] starts with [sub]; [sub] occurs in [s]. *)
Fixpoint starts (sub s : list ascii) : bool :=
  match sub, s with
  | [], _ => true
  | a :: sub', b :: s' => Ascii.eqb b a && starts sub' s'
  | _ :: _, [] => false
  end.

Fixpoint occurs (sub s : list ascii) : bool :=
  starts sub s ||
  match s with
  | [] => false
  | _ :: s' => occurs sub s'
  end.

Definition host : string := "github.com/".

(** [<pre>github.com/<owner>/<repo><tail>] *)
Definition plain_url (pre owner repo tail : string) : string :=
  pre ++ host ++ owner ++ "/" ++ repo ++ tail.

Definition path_of (owner repo dir rest : string) : string :=
  owner ++ "/" ++ repo ++ "/" ++ dir ++ "/" ++ rest.

(** [<pre>github.com/<owner>/<repo>/<dir>/<rest>] *)
Definition sub_url (pre owner repo dir rest : string) : string :=
  pre ++ host ++ path_of owner repo dir rest.

(** What the end of the plain pattern, [/?$], and what its end with the
    optional [.git] before, read entirely. *)
Definition accept2 (s : list ascii) : bool :=
  at_end s ||
  match s with
  | a :: s' => Ascii.eqb a Url.slash && at_end s'
  | [] => false
  end.

Definition accepts (s : list ascii) : bool :=
  (starts dot_git s && accept2 (drop 4 s)) || accept2 s.

(** The ends a plain URL can have after the project name. *)
Definition tails : list string := [ ""; "/"; ".git"; ".git/" ].

(** The number of slashes of a text. *)
Fixpoint slashes (s : list ascii) : nat :=
  match s with
  | [] => 0
  | a :: s' => (if Ascii.eqb a Url.slash then 1 else 0) + slashes s'
  end.

(** The continuation that ends a match, and the end of the plain
    pattern. *)
Definition finish : list ascii -> groups -> option groups := fun _ g => Some g.

Definition plain_end : regex :=
  Cat (Opt (lit ".gi" (One (Char "t"%char))))
      (Cat (Opt (One (Char Url.slash))) Eol).

End UrlForms.

(** ** The rest of scripts/analyze_mcp_server_repo.py *)

Module Server.

(** What the script takes from Python's library and from the outside. *)
Record env : Type := {
  json_loads : string -> option json;          (* json.loads, None for JSONDecodeError *)
  str_lower : string -> string;                (* str.lower *)
  str_title : string -> string;                (* str.title *)
  re_findall : string -> string -> list string; (* re.findall for a pattern with one group *)
  float_nonzero : string -> bool;              (* bool(x) for the float with this lexeme *)
  now : string;                                (* datetime.now().isoformat() *)
  hq_dir : string;                             (* Path(__file__).parent.parent.parent *)
  can_write : string -> bool                   (* whether open(path, 'w') succeeds *)
}.

(** [bool(v)] *)
Definition truthy (e : env) (v : json) : bool :=
  match v with
  | JNull => false
  | JBool b => b
  | JInt n => negb (n =? 0)%Z
  | JFloat x => float_nonzero e x
  | JStr t => negb (String.eqb t "")
  | JArr l => match l with [] => false | _ => true end
  | JObj d => match d with [] => false | _ => true end
  end.

(** [s.replace(a, b)] for two characters *)
Fixpoint replace_char (a b : ascii) (s : string) : string :=
  match s with
  | EmptyString => EmptyString
  | String c s' => String (if Ascii.eqb c a then b else c) (replace_char a b s')
  end.

Definition strs (l : list string) : json := JArr (JStr <$> l).

Definition _get_repository_summary (owner repo : string) : dict :=
  [ ("name", JStr (owner ++ "/" ++ repo));
    ("description", JStr "Repository description from API");
    ("files", JArr []);
    ("token_count", JInt 0);
    ("summary", JStr "Repository summary content") ].

Definition _get_repository_tree (owner repo : string) : dict :=
  [ ("tree", JArr []) ].

(** *** Package metadata *)

Definition default_metadata : dict :=
  [ ("name", JStr "unknown"); ("version", JStr "1.0.0"); ("description", JStr "");
    ("dependencies", JObj []); ("scripts", JObj []); ("author", JStr "");
    ("license", JStr "") ].

Definition _analyze_package_metadata (e : env) (file_contents : gmap string string)
  : result dict :=
  let metadata := default_metadata in
  let package_json := default "{}" (file_contents !! "package.json") in
  try_except
    (package_data ← loads (json_loads e) package_json;
     name ← Dyn.get package_data "name" (JStr "unknown");
     version ← Dyn.get package_data "version" (JStr "1.0.0");
     description ← Dyn.get package_data "description" (JStr "");
     dependencies ← Dyn.get package_data "dependencies" (JObj []);
     scripts ← Dyn.get package_data "scripts" (JObj []);
     author ← Dyn.get package_data "author" (JStr "");
     license ← Dyn.get package_data "license" (JStr "");
     Ok (Dict.set "license" license
           (Dict.set "author" author
              (Dict.set "scripts" scripts
                 (Dict.set "dependencies" dependencies
                    (Dict.set "description" description
                       (Dict.set "version" version
                          (Dict.set "name" name metadata))))))))
    (fun x => if is_decode_error x then Some (Ok metadata) else None).

(** *** Tools *)

Record tool : Type := {
  tool_name : string;
  tool_source : string      (* the file it was found in *)
}.

Definition tool_json (t : tool) : json :=
  JObj [ ("name", JStr (tool_name t));
         ("description", JStr ("Tool extracted from " ++ tool_source t));
         ("parameters", JArr []);
         ("use_case", JStr "Automated analysis - review required") ].

Definition source_files : list string :=
  [ "src/index.ts"; "src/index.js"; "src/server.ts"; "src/server.js";
    "index.ts"; "index.js" ].

(** The three patterns, with [dq] for the double quote:
    [name:\s*[QUOTES]([^QUOTES]+)[QUOTES]], the same for a quoted key, and
    [tool\s*\(\s*[QUOTES]([^QUOTES]+)[QUOTES]]. *)
Definition tool_patterns : list string :=
  [ "name:\s*[" ++ dq ++ "\']([^" ++ dq ++ "\']+)[" ++ dq ++ "\']";
    dq ++ "name" ++ dq ++ ":\s*" ++ dq ++ "([^" ++ dq ++ "]+)" ++ dq;
    "tool\s*\(\s*[" ++ dq ++ "\']([^" ++ dq ++ "\']+)[" ++ dq ++ "\']" ].

(** [for match in matches: if match not in [names]: tools.append(...)] *)
Fixpoint add_matches (file_path : string) (matches : list string) (tools : list tool)
  : list tool :=
  match matches with
  | [] => tools
  | m :: rest =>
      if Nu.listed m (tool_name <$> tools)
      then add_matches file_path rest tools
      else add_matches file_path rest
             (tools ++ [{| tool_name := m; tool_source := file_path |}])
  end.

(** [for pattern in tool_patterns: matches = re.findall(pattern, content) ...] *)
Fixpoint scan_patterns (e : env) (file_path content : string) (patterns : list string)
    (tools : list tool) : list tool :=
  match patterns with
  | [] => tools
  | pattern :: rest =>
      scan_patterns e file_path content rest
        (add_matches file_path (re_findall e pattern content) tools)
  end.

(** [for file_path in source_files: content = file_contents.get(file_path, '');
    if content: ...] *)
Fixpoint scan_files (e : env) (file_contents : gmap string string)
    (files : list string) (tools : list tool) : list tool :=
  match files with
  | [] => tools
  | file_path :: rest =>
      let content := default "" (file_contents !! file_path) in
      scan_files e file_contents rest
        (if String.eqb content "" then tools
         else scan_patterns e file_path content tool_patterns tools)
  end.

Definition found_tools (e : env) (file_contents : gmap string string) : list tool :=
  scan_files e file_contents source_files [].

Definition _analyze_tools_and_resources (e : env) (file_contents : gmap string string)
    (repo_tree : dict) : dict :=
  let tools := found_tools e file_contents in
  [ ("tools", JArr (tool_json <$> tools));
    ("resources", JArr []);
    ("analysis_notes",
     JStr ("Extracted " ++ pretty (length tools) ++ " tools from source code analysis")) ].

(** *** The parts of the record *)

Definition use_case_sections : list string :=
  [ "## Use Cases"; "## Features"; "## Capabilities"; "## What it does" ].

Fixpoint collect_use_cases (e : env) (sections : list string) (readme_content : string)
    (use_cases : list string) : list string :=
  match sections with
  | [] => use_cases
  | section :: rest =>
      collect_use_cases e rest readme_content
        (if Py.contains (str_lower e section) (str_lower e readme_content)
         then use_cases ++ ["Use case extracted from README analysis"]
         else use_cases)
  end.

Definition _extract_use_cases (e : env) (file_contents : gmap string string)
  : list string :=
  let readme_content := default "" (file_contents !! "README.md") in
  let use_cases := collect_use_cases e use_case_sections readme_content [] in
  let use_cases :=
    match use_cases with
    | [] => ["Repository analysis required to determine use cases"]
    | _ => use_cases
    end in
  take 5 use_cases.

Definition _analyze_requirements : json :=
  JObj [ ("authentication", JStr "api_key"); ("api_keys_needed", JArr []);
         ("external_dependencies", JArr []); ("network_access", JBool true);
         ("file_system_access", JBool false); ("database_access", JBool false) ].

Definition _estimate_performance : json :=
  JObj [ ("response_time", JStr "fast"); ("resource_usage", JStr "low");
         ("concurrent_requests", JInt 10);
         ("rate_limits", JStr "Standard API rate limits apply") ].

Definition _assess_maturity : json :=
  JObj [ ("stability", JStr "stable"); ("maintenance", JStr "active");
         ("community", JStr "medium"); ("documentation", JStr "good") ].

Definition _generate_tags (e : env) (metadata : dict) : result (list string) :=
  let tags := ["mcp-server"] in
  name ← match default (JStr "") (Dict.get "name" metadata) with
         | JStr t => Ok (str_lower e t)
         | _ => Raise AttributeError
         end;
  let tags := if Py.contains "git" name then (tags ++ ["git"])%list else tags in
  let tags := if Py.contains "database" name || Py.contains "db" name
              then (tags ++ ["database"])%list else tags in
  let tags := if Py.contains "api" name then (tags ++ ["api"])%list else tags in
  Ok tags.

Definition _generate_deployment_config (deployment_info : gmap string (gmap string bool))
    (namespace package : string) : json :=
  JObj
    [ ("smithery",
       JObj
         [ ("available",
            JBool (default false (default ∅ (deployment_info !! "smithery")
                                    !! "available")));
           ("profile", JStr "junior-roadrunner-9CJKFU");
           ("url", JStr ("https://server.smithery.ai/@" ++ namespace ++ "/"
                         ++ package ++ "/mcp"));
           ("install_command", JStr ("claude mcp add @" ++ namespace ++ "/" ++ package));
           ("requirements",
            JObj [ ("api_key", JBool true); ("profile", JBool true);
                   ("additional_config", JBool false) ]);
           ("instructions",
            JObj [ ("setup",
                    strs [ "Configure Smithery API key and profile";
                           "Install via: claude mcp add @" ++ namespace ++ "/" ++ package;
                           "Verify installation and connectivity" ]) ]) ]) ].

Definition _generate_automation_config : json :=
  JObj [ ("global_instructions",
          JObj [ ("enabled", JBool false);
                 ("instructions",
                  strs ["Generated instructions based on repository analysis"]);
                 ("triggers", strs ["Automatic triggers based on tool analysis"]) ]) ].

Definition _generate_integration_config : json :=
  JObj [ ("mcp_servers", JArr []); ("external_systems", JArr []);
         ("data_flow",
          JObj [ ("inputs", strs ["Input types determined from analysis"]);
                 ("outputs", strs ["Output types determined from analysis"]);
                 ("storage", strs ["Storage requirements from analysis"]) ]) ].

Definition _generate_security_config : json :=
  JObj [ ("authentication",
          JObj [ ("methods", strs ["api_key"]);
                 ("credential_storage", JStr "environment");
                 ("rotation_required", JBool false);
                 ("encryption", JStr "in_transit") ]) ].

Definition _generate_monitoring_config : json :=
  JObj [ ("health_check",
          JObj [ ("endpoint", JStr "/health"); ("method", JStr "GET");
                 ("expected_response", JStr "200"); ("timeout", JInt 5000) ]) ].

Definition _generate_maintenance_config : json :=
  JObj [ ("update_frequency", JStr "monthly"); ("backup_required", JBool false);
         ("downtime_tolerance", JStr "low") ].

(** [d.get(key, default)] on a mapping *)
Definition get_or (key : string) (default : json) (d : dict) : json :=
  match Dict.get key d with Some v => v | None => default end.

Definition _generate_server_config (e : env) (server_name github_url : string)
    (repo_summary metadata tools_info : dict)
    (deployment_info : gmap string (gmap string bool))
    (file_contents : gmap string string) : result json :=
  let '(owner, repo) := Scripts._parse_github_url github_url in
  let namespace := if Py.truthy owner then Nu.fmt owner else "unknown" in
  let package := if Py.truthy repo then Nu.fmt repo else server_name in
  let description :=
    let d := get_or "description" JNull metadata in
    if truthy e d then d else get_or "description" (JStr "") repo_summary in
  tags ← _generate_tags e metadata;
  Ok (JObj
        [ ("metadata",
           JObj
             [ ("server_id", JStr server_name);
               ("display_name",
                JStr (str_title e (replace_char "-" " " package) ++ " MCP Server"));
               ("namespace", JStr namespace);
               ("package", JStr package);
               ("version", get_or "version" (JStr "1.0.0") metadata);
               ("description", description);
               ("use_cases", strs (_extract_use_cases e file_contents));
               ("tools", get_or "tools" (JArr []) tools_info);
               ("resources", get_or "resources" (JArr []) tools_info);
               ("requirements", _analyze_requirements);
               ("performance", _estimate_performance);
               ("maturity", _assess_maturity);
               ("planned_agent",
                JObj [ ("assigned", JBool false); ("agent_name", JStr "");
                       ("agent_role", JStr ""); ("automation_level", JStr "manual") ]);
               ("priority_deployment",
                JStr (Scripts._determine_priority_deployment deployment_info));
               ("tags", strs tags);
               ("repository_url", JStr github_url);
               ("analysis_date", JStr (now e));
               ("analysis_version", JStr "1.0.0") ]);
          ("deployment", _generate_deployment_config deployment_info namespace package);
          ("automation", _generate_automation_config);
          ("integration", _generate_integration_config);
          ("security", _generate_security_config);
          ("monitoring", _generate_monitoring_config);
          ("maintenance", _generate_maintenance_config) ]).

(** *** The run *)

(** Steps 1 to 5 of [analyze_server_repository]. *)
Definition steps (e : env) (owner repo github_url server_name : string)
  : result json :=
  let repo_summary := _get_repository_summary owner repo in
  let repo_tree := _get_repository_tree owner repo in
  let key_files := Scripts._identify_key_files in
  let file_contents := Scripts._extract_file_contents owner repo key_files in
  metadata ← _analyze_package_metadata e file_contents;
  let tools_info := _analyze_tools_and_resources e file_contents repo_tree in
  let deployment_info := Scripts._analyze_deployment_options file_contents in
  _generate_server_config e server_name github_url repo_summary metadata
    tools_info deployment_info file_contents.

Definition analyze_server_repository (e : env) (github_url server_name : string)
  : result json :=
  r ← Scripts.analyze_server_repository (steps e) github_url server_name; r.

Record args : Type := {
  github_url : string;
  server_name : string;
  output : option string      (* --output / -o *)
}.

Definition save_path (e : env) (server_name : string) : string :=
  hq_dir e ++ "/mcp-servers/active/" ++ server_name ++ ".json".

Definition main (e : env) (a : args) : Nu.outcome :=
  match analyze_server_repository e (github_url a) (server_name a) with
  | Raise _ => {| Nu.exit_code := 1; Nu.written := [] |}
  | Ok config =>
      let output_path :=
        if Py.truthy (output a) then Nu.fmt (output a)
        else save_path e (server_name a) in
      if can_write e output_path
      then
        (* the two lines printed after the record is saved read
           metadata.tools and metadata.tags *)
        match tools ← (Dyn.getitem config "metadata" ≫= fun m => Dyn.getitem m "tools");
              _ ← Dyn.len tools;
              tags ← (Dyn.getitem config "metadata" ≫= fun m => Dyn.getitem m "tags");
              Dyn.joinable tags with
        | Ok _ => {| Nu.exit_code := 0; Nu.written := [(output_path, config)] |}
        | Raise _ => {| Nu.exit_code := 1; Nu.written := [(output_path, config)] |}
        end
      else {| Nu.exit_code := 1; Nu.written := [] |}
  end.

(** The placeholder text the script has for a file. *)
Definition placeholder (path : string) : string :=
  "Content of " ++ path ++ " would be extracted here".

(** Where a tool comes from: a pattern found its name in a source file
    that is there and not empty. *)
Definition found_in (e : env) (file_contents : gmap string string) (t : tool) : Prop :=
  exists pattern content,
    pattern ∈ tool_patterns
    /\ tool_source t ∈ source_files
    /\ file_contents !! tool_source t = Some content
    /\ content <> ""
    /\ tool_name t ∈ re_findall e pattern content.

(** A section that is there, a mapping and not empty. *)
Definition filled (o : option json) : bool :=
  match o with Some (JObj (_ :: _)) => true | _ => false end.

(** What is required of a record: the seven sections, in this order and
    filled, and in its metadata the given identifier and URL. *)
Definition well_formed (server_name github_url : string) (config : dict) : Prop :=
  Dict.keys config = Spec.sections
  /\ forallb (fun k => filled (Dict.get k config)) Spec.sections = true
  /\ exists metadata,
       Dict.get "metadata" config = Some (JObj metadata)
       /\ Dict.get "server_id" metadata = Some (JStr server_name)
       /\ Dict.get "repository_url" metadata = Some (JStr github_url).

(** An environment with the reference JSON reader, a lower-casing of the
    ASCII letters and no tool found. *)
Definition ascii_lower (c : ascii) : ascii :=
  let n := nat_of_ascii c in
  if ((65 <=? n) && (n <=? 90))%nat then ascii_of_nat (n + 32) else c.

Fixpoint lower_ascii (s : string) : string :=
  match s with
  | EmptyString => EmptyString
  | String c s' => String (ascii_lower c) (lower_ascii s')
  end.

Definition sample_env : env :=
  {| json_loads := JsonReader.loads;
     str_lower := lower_ascii;
     str_title := fun s => s;
     re_findall := fun _ _ => [];
     float_nonzero := fun _ => true;
     now := "2025-06-01T12:00:00";
     hq_dir := "/srv/claude-hq";
     can_write := fun _ => true |}.

End Server.

(** * Properties *)

(** ** The matcher is sound for a declarative reading of the patterns *)

Module ReFacts.
Import Re.
Local Open Scope list_scope.

Section QuantifierFacts.
Context {A : Type} (p : ascii -> bool).

Lemma star_greedy_sound (s : list ascii) (k : list ascii -> option A) (x : A) :
  star_greedy p s k = Some x ->
  exists w s', s = w ++ s' /\ Forall (fun b => p b = true) w /\ k s' = Some x.
Proof.
  induction s as [|a s IH]; simpl; intros H.
  - exists [], []. auto.
  - destruct (p a) eqn:Ha.
    + destruct (star_greedy p s k) as [y|] eqn:Hs.
      * injection H as ->.
        destruct (IH eq_refl) as (w & s' & -> & Hw & Hk).
        exists (a :: w), s'. auto.
      * exists [], (a :: s). auto.
    + exists [], (a :: s). auto.
Qed.

Lemma plus_greedy_sound (s : list ascii) (k : list ascii -> option A) (x : A) :
  plus_greedy p s k = Some x ->
  exists a w s', s = a :: w ++ s' /\ p a = true
                 /\ Forall (fun b => p b = true) w /\ k s' = Some x.
Proof.
  destruct s as [|a s]; simpl; [discriminate|].
  destruct (p a) eqn:Ha; [|discriminate].
  intros H. apply star_greedy_sound in H as (w & s' & -> & Hw & Hk).
  exists a, w, s'. auto.
Qed.

Lemma plus_lazy_sound (s : list ascii) (k : list ascii -> option A) (x : A) :
  plus_lazy p s k = Some x ->
  exists a w s', s = a :: w ++ s' /\ p a = true
                 /\ Forall (fun b => p b = true) w /\ k s' = Some x.
Proof.
  induction s as [|a s IH]; simpl; [discriminate|].
  destruct (p a) eqn:Ha; [|discriminate].
  destruct (k s) as [y|] eqn:Hk.
  - intros [= ->]. exists a, [], s. auto.
  - intros H. destruct (IH H) as (b & w & s' & -> & Hb & Hw & Hk').
    exists a, (b :: w), s'. auto.
Qed.
End QuantifierFacts.

Lemma rmatch_sound (r : regex) :
  forall s g k x,
    rmatch r s g k = Some x ->
    exists s' g', den r s g s' g' /\ k s' g' = Some x.
Proof.
  induction r as [c|c greedy|r IH|n r IH|r1 IH1 r2 IH2|]; simpl; intros s g k x H.
  - destruct s as [|a s]; [discriminate|].
    destruct (test c a) eqn:Ha; [|discriminate].
    exists s, g. eauto.
  - destruct greedy.
    + apply plus_greedy_sound in H as (a & w & s' & -> & Ha & Hw & Hk).
      exists s', g. split; [|assumption]. exists a, w. auto.
    + apply plus_lazy_sound in H as (a & w & s' & -> & Ha & Hw & Hk).
      exists s', g. split; [|assumption]. exists a, w. auto.
  - destruct (rmatch r s g k) as [y|] eqn:Hr.
    + injection H as ->. destruct (IH _ _ _ _ Hr) as (s' & g' & Hd & Hk).
      exists s', g'. auto.
    + exists s, g. auto.
  - destruct (IH _ _ _ _ H) as (s' & g0 & Hd & Hk).
    exists s', (set_group n (consumed s s') g0). split; [|assumption].
    exists g0. auto.
  - destruct (IH1 _ _ _ _ H) as (s1 & g1 & Hd1 & H2).
    destruct (IH2 _ _ _ _ H2) as (s' & g' & Hd2 & Hk).
    exists s', g'. split; [|assumption]. exists s1, g1. auto.
  - destruct (at_end s) eqn:He; [|discriminate].
    exists s, g. auto.
Qed.

(** A pattern reads a prefix of its input. *)
Lemma den_prefix (r : regex) :
  forall s g s' g', den r s g s' g' -> exists w, s = w ++ s'.
Proof.
  induction r as [c|c greedy|r IH|n r IH|r1 IH1 r2 IH2|]; simpl; intros s g s' g' H.
  - destruct H as (a & -> & _). exists [a]. reflexivity.
  - destruct H as (a & w & -> & _). exists (a :: w). reflexivity.
  - destruct H as [H|[-> _]]; [eauto|]. exists []. reflexivity.
  - destruct H as (g0 & H & _). eauto.
  - destruct H as (s1 & g1 & H1 & H2).
    destruct (IH1 _ _ _ _ H1) as (w1 & ->).
    destruct (IH2 _ _ _ _ H2) as (w2 & ->).
    exists (w1 ++ w2). by rewrite <- app_assoc.
  - destruct H as (_ & -> & _). exists []. reflexivity.
Qed.

Lemma consumed_app (w s' : list ascii) : consumed (w ++ s') s' = w.
Proof.
  unfold consumed. rewrite length_app.
  replace (length w + length s' - length s') with (length w) by lia.
  by rewrite take_app_length.
Qed.

Lemma search_from_sound (r : regex) (s : list ascii) (g : groups) :
  search_from r s = Some g ->
  exists s0 s', den r s0 no_groups s' g.
Proof.
  induction s as [|a s IH]; simpl.
  - destruct (rmatch r [] no_groups _) as [y|] eqn:Hm; [|discriminate].
    intros [= ->]. apply rmatch_sound in Hm as (s' & g' & Hd & [= ->]). eauto.
  - destruct (rmatch r (a :: s) no_groups _) as [y|] eqn:Hm.
    + intros [= ->]. apply rmatch_sound in Hm as (s' & g' & Hd & [= ->]). eauto.
    + auto.
Qed.

Lemma den_nonempty (r : regex) :
  forall s g s' g',
    den r s g s' g' -> nonempty r = true -> exists a w, s = a :: w ++ s'.
Proof.
  induction r as [c|c greedy|r IH|n r IH|r1 IH1 r2 IH2|]; simpl;
    intros s g s' g' H Hn; try discriminate.
  - destruct H as (a & -> & _). exists a, []. reflexivity.
  - destruct H as (a & w & -> & _). eauto.
  - destruct H as (g0 & H & _). eauto.
  - destruct H as (s1 & g1 & H1 & H2).
    destruct (nonempty r1) eqn:N1.
    + destruct (IH1 _ _ _ _ H1 eq_refl) as (a & w & ->).
      destruct (den_prefix _ _ _ _ _ H2) as (w2 & ->).
      exists a, (w ++ w2). by rewrite <- app_assoc.
    + simpl in Hn. destruct (IH2 _ _ _ _ H2 Hn) as (a & w & ->).
      destruct (den_prefix _ _ _ _ _ H1) as ([|b w1] & ->).
      * exists a, w. reflexivity.
      * exists b, (w1 ++ a :: w). simpl. by rewrite <- app_assoc.
Qed.

Lemma den_untouched (n : nat) (r : regex) :
  forall s g s' g', den r s g s' g' -> untouched n r = true -> g' n = g n.
Proof.
  induction r as [c|c greedy|r IH|m r IH|r1 IH1 r2 IH2|]; simpl;
    intros s g s' g' H Hu.
  - by destruct H as (a & _ & _ & ->).
  - by destruct H as (a & w & _ & _ & _ & ->).
  - destruct H as [H|[_ ->]]; eauto.
  - destruct H as (g0 & H & ->). apply andb_prop in Hu as [Hm Hu].
    unfold set_group. destruct (Nat.eqb n m); [discriminate|]. eauto.
  - destruct H as (s1 & g1 & H1 & H2). apply andb_prop in Hu as [Hu1 Hu2].
    rewrite (IH2 _ _ _ _ H2 Hu2). eauto.
  - by destruct H as (_ & _ & ->).
Qed.

Lemma den_sets (n : nat) (r : regex) :
  forall s g s' g',
    den r s g s' g' -> sets n r = true ->
    exists t, g' n = Some t /\ t <> EmptyString.
Proof.
  induction r as [c|c greedy|r IH|m r IH|r1 IH1 r2 IH2|]; simpl;
    intros s g s' g' H Hs; try discriminate.
  - destruct H as (g0 & H & ->). unfold set_group.
    destruct (Nat.eqb n m); [|eauto].
    destruct (den_nonempty _ _ _ _ _ H Hs) as (a & w & ->).
    change (a :: w ++ s') with ((a :: w) ++ s'). rewrite consumed_app.
    eexists. split; [reflexivity|]. discriminate.
  - destruct H as (s1 & g1 & H1 & H2).
    destruct (sets n r2) eqn:S2; [eauto|]. simpl in Hs.
    apply andb_prop in Hs as [S1 U2].
    rewrite (den_untouched _ _ _ _ _ _ H2 U2). eauto.
Qed.

End ReFacts.

(** ** URL resolution *)

Module UrlFacts.
Import Re Url ReFacts.

Lemma patterns_set_both (p : regex) :
  In p patterns -> sets 1 p = true /\ sets 2 p = true.
Proof.
  simpl. intros [<-|[<-|[<-|[]]]]; split; reflexivity.
Qed.

Lemma search_groups (p : regex) (url : string) (g : groups) :
  In p patterns -> search p url = Some g ->
  exists owner repo,
    g 1%nat = Some owner /\ g 2%nat = Some repo
    /\ owner <> EmptyString /\ repo <> EmptyString.
Proof.
  intros Hp Hs. apply search_from_sound in Hs as (s0 & s' & Hd).
  destruct (patterns_set_both p Hp) as [S1 S2].
  destruct (den_sets _ _ _ _ _ _ Hd S1) as (o & Ho & Hne).
  destruct (den_sets _ _ _ _ _ _ Hd S2) as (r & Hr & Hnr).
  exists o, r. auto.
Qed.

(** The loop over the patterns returns the groups of the first pattern
    that matches, and [(None, None)] when none does. *)
Lemma first_match_cases (ps : list regex) (url : string) :
  (first_match ps url = (None, None)
   /\ Forall (fun p => search p url = None) ps)
  \/ (exists p g, In p ps /\ search p url = Some g
                  /\ first_match ps url = (g 1%nat, g 2%nat)).
Proof.
  induction ps as [|p ps IH]; simpl.
  - left. auto.
  - destruct (search p url) as [g|] eqn:Hs.
    + right. exists p, g. auto.
    + destruct IH as [[H1 H2]|(q & g & Hq & Hs' & Hf)].
      * left. auto.
      * right. exists q, g. auto.
Qed.

Lemma some_pattern_matches_false (url : string) :
  some_pattern_matches url = false <->
  Forall (fun p => search p url = None) patterns.
Proof.
  unfold some_pattern_matches. generalize patterns as ps.
  induction ps as [|p ps IH]; simpl.
  - split; auto.
  - destruct (search p url) eqn:Hs; simpl.
    + split; [discriminate|]. intros H. inversion H; congruence.
    + rewrite IH. split; [auto|]. intros H. by inversion H.
Qed.

(** Both components come from one match and are non-empty, or there is
    no match and both are [None]. *)
Lemma parse_cases (url : string) :
  (_parse_github_url url = (None, None) /\ some_pattern_matches url = false)
  \/ (exists p g owner repo,
        In p patterns /\ search p url = Some g
        /\ g 1%nat = Some owner /\ g 2%nat = Some repo
        /\ _parse_github_url url = (Some owner, Some repo)
        /\ owner <> EmptyString /\ repo <> EmptyString
        /\ some_pattern_matches url = true).
Proof.
  unfold _parse_github_url.
  destruct (first_match_cases patterns url) as [[H1 H2]|(p & g & Hp & Hs & Hf)].
  - left. split; [assumption|]. by apply some_pattern_matches_false.
  - right. destruct (search_groups p url g Hp Hs) as (o & r & Ho & Hr & Hno & Hnr).
    exists p, g, o, r. rewrite Hf, Ho, Hr. repeat split; auto.
    destruct (some_pattern_matches url) eqn:Hm; [reflexivity|].
    apply some_pattern_matches_false in Hm.
    rewrite Forall_forall in Hm.
    pose proof (Hm p (proj2 (list_elem_of_In _ _) Hp)). congruence.
Qed.

Lemma truthy_nonempty (t : string) : t <> EmptyString -> Py.truthy (Some t) = true.
Proof. intros H. simpl. by destruct t. Qed.

End UrlFacts.

(** C9. For every input text, URL parsing returns both components, two
    strings captured by one match of one pattern, or neither: the result
    is never a pair with exactly one [None]. The two scripts carry the
    same parser. *)
Theorem parse_github_url_both_or_neither (url : string) :
  Nu._parse_github_url url = Scripts._parse_github_url url
  /\ (Nu._parse_github_url url = (None, None)
      \/ exists p g owner repo,
           In p Url.patterns /\ Re.search p url = Some g
           /\ g 1%nat = Some owner /\ g 2%nat = Some repo
           /\ Nu._parse_github_url url = (Some owner, Some repo)).
Proof.
  split; [reflexivity|].
  destruct (UrlFacts.parse_cases url) as [[H _]|(p & g & o & r & Hp & Hs & Ho & Hr & Hf & _)].
  - left. exact H.
  - right. exists p, g, o, r. auto.
Qed.

(** ** The reference check of the two scripts *)

(** The check [if not owner or repo] of the nu script holds for every
    URL: without a match [owner] is [None], with a match [repo] is a
    non-empty string. *)
Lemma nu_analyze_repository_raises
    (json_loads : string -> option json) (json_dumps : json -> string)
    (w : world) (self : Nu.analyzer) (github_url server_name : string) :
  Nu.analyze_repository json_loads json_dumps w self github_url server_name
  = Raise (ValueError ("Invalid GitHub URL: " ++ github_url)).
Proof.
  unfold Nu.analyze_repository, Nu._parse_github_url.
  destruct (UrlFacts.parse_cases github_url)
    as [[-> _]|(p & g & o & r & _ & _ & _ & _ & -> & _ & Hr & _)].
  - reflexivity.
  - rewrite (UrlFacts.truthy_nonempty r Hr). by rewrite orb_true_r.
Qed.

Lemma nu_main_exits_1
    (json_loads : string -> option json) (json_dumps : json -> string)
    (w : world) (a : Nu.args) :
  Nu.main json_loads json_dumps w a
  = {| Nu.exit_code := 1; Nu.written := [] |}.
Proof.
  unfold Nu.main. by rewrite nu_analyze_repository_raises.
Qed.

(** The check [if not owner or not repo] of the other script raises
    exactly when no pattern matches. *)
Lemma scripts_reference_check {config : Type}
    (steps : string -> string -> string -> string -> config)
    (github_url server_name : string) :
  (Url.some_pattern_matches github_url = false
   /\ Scripts.analyze_server_repository steps github_url server_name
      = Raise (ValueError ("Invalid GitHub URL: " ++ github_url)))
  \/ (Url.some_pattern_matches github_url = true
      /\ exists owner repo,
           Scripts._parse_github_url github_url = (Some owner, Some repo)
           /\ Scripts.analyze_server_repository steps github_url server_name
              = Ok (steps owner repo github_url server_name)).
Proof.
  unfold Scripts.analyze_server_repository, Scripts._parse_github_url.
  destruct (UrlFacts.parse_cases github_url)
    as [[-> Hm]|(p & g & o & r & _ & _ & _ & _ & -> & Ho & Hr & Hm)].
  - left. auto.
  - right. split; [assumption|]. exists o, r.
    rewrite (UrlFacts.truthy_nonempty o Ho), (UrlFacts.truthy_nonempty r Hr).
    auto.
Qed.

(** C1. The run on [https://github.com/acme/widget-mcp] with the server
    identifier [widget] and the default output location: whatever the
    backends do, the nu script ends with exit code 1 and writes no
    record, where the claim has exit code 0 and one record. *)
Theorem nu_main_widget_exits_1
    (json_loads : string -> option json) (json_dumps : json -> string)
    (w : world) :
  Nu.main json_loads json_dumps w
    {| Nu.github_url := "https://github.com/acme/widget-mcp";
       Nu.server_name := "widget";
       Nu.output := None;
       Nu.agent := None |}
  = {| Nu.exit_code := 1; Nu.written := [] |}.
Proof. apply nu_main_exits_1. Qed.

(** The same run, evaluated where no backend is installed and the
    ingestion calls fail. *)
Example nu_main_widget_offline :
  Nu.main JsonReader.loads Sample.dumps_names Sample.offline
    {| Nu.github_url := "https://github.com/acme/widget-mcp";
       Nu.server_name := "widget";
       Nu.output := None;
       Nu.agent := None |}
  = {| Nu.exit_code := 1; Nu.written := [] |}
  /\ Nu.selected_agent (Nu.init Sample.offline) = "claude".
Proof. split; vm_compute; reflexivity. Qed.

(** C2. On [https://github.com/acme/widget-mcp] the first pattern
    matches, with owner [acme] and project [widget-mcp]; the nu script
    raises its invalid-URL error all the same, while the other script,
    whose check is [not owner or not repo], goes on with the run. *)
Theorem nu_reference_check_rejects_matching_url :
  let url := "https://github.com/acme/widget-mcp" in
  Url.some_pattern_matches url = true
  /\ Nu._parse_github_url url = (Some "acme", Some "widget-mcp")
  /\ (forall json_loads json_dumps w self server_name,
        Nu.analyze_repository json_loads json_dumps w self url server_name
        = Raise (ValueError ("Invalid GitHub URL: " ++ url)))
  /\ (forall (config : Type) (steps : string -> string -> string -> string -> config)
             server_name,
        Scripts.analyze_server_repository steps url server_name
        = Ok (steps "acme" "widget-mcp" url server_name)).
Proof.
  cbv zeta. split; [by vm_compute|]. split; [by vm_compute|]. split.
  - intros. apply nu_analyze_repository_raises.
  - intros. reflexivity.
Qed.

(** ** Response extraction *)

Module ExtractFacts.





















(** An extraction has three ends: a value, the [else] branch, or the
    parse error. *)
Lemma extract_json_cases (json_loads : string -> option json) (response : string) :
  (exists v, extract_json json_loads response = Ok (Some v))
  \/ extract_json json_loads response = Ok None
  \/ extract_json json_loads response = Raise JSONDecodeError.
Proof.
  unfold extract_json, loads.
  destruct (_ && _); [|auto].
  destruct (json_loads _); simpl; eauto.
Qed.


End ExtractFacts.


(** ** Ingestion: the summary call *)

(** A summary call whose child process was started never raises. *)
Lemma get_repository_summary_returns (json_loads : string -> option json)
    (w : world) (owner repo : string) :
  subprocess_run w (Nu.summary_cmd owner repo) (Some 60%Z) <> LaunchFailed ->
  exists summary, Nu._get_repository_summary json_loads w owner repo = Ok summary.
Proof.
  intros Hl. unfold Nu._get_repository_summary, run.
  destruct (subprocess_run w _ _) as [rc out err| |]; simpl; [|eauto|done].
  destruct (rc =? 0)%Z; [|eauto].
  destruct (ExtractFacts.extract_json_cases json_loads (Py.strip out))
    as [[v ->]|[->| ->]]; simpl; eauto.
Qed.



Example summary_when_offline :
  Nu._get_repository_summary JsonReader.loads Sample.offline "acme" "widget-mcp"
  = Ok (Nu.degraded_summary "acme" "widget-mcp" "GitIngest call failed").
Proof. vm_compute. reflexivity. Qed.

Example summary_when_chatty :
  Nu._get_repository_summary JsonReader.loads Sample.chatty "acme" "widget-mcp"
  = Ok (Nu.degraded_summary "acme" "widget-mcp" "Analysis failed").
Proof. vm_compute. reflexivity. Qed.

Example summary_when_garbled :
  Nu._get_repository_summary JsonReader.loads Sample.garbled "acme" "widget-mcp"
  = Ok (Nu.degraded_summary "acme" "widget-mcp" "JSON parse failed").
Proof. vm_compute. reflexivity. Qed.

(** ** Agent selection *)

Lemma detect_agents_lookup (w : world) :
  Nu._detect_agents w !! "gemini" = Some (Nu.probe w "gemini")
  /\ Nu._detect_agents w !! "codex" = Some (Nu.probe w "codex")
  /\ Nu._detect_agents w !! "claude" = Some true.
Proof. unfold Nu._detect_agents. by simplify_map_eq. Qed.

(** C7. The selection is a function of the availability mapping and
    follows the order gemini, codex, claude: gemini when it is available
    (so also when both optional backends are), codex when it is and gemini
    is not, claude when neither is. On the mapping that the detection
    builds, claude is marked available and the selected backend is one
    that is marked available. *)
Theorem select_best_agent_order :
  (forall agents : gmap string bool,
      agents !! "gemini" = Some true ->
      Nu._select_best_agent agents = "gemini")
  /\ (forall agents : gmap string bool,
        Nu.available agents "gemini" = false ->
        agents !! "codex" = Some true ->
        Nu._select_best_agent agents = "codex")
  /\ (forall agents : gmap string bool,
        Nu.available agents "gemini" = false ->
        Nu.available agents "codex" = false ->
        Nu._select_best_agent agents = "claude")
  /\ (forall w : world,
        let agents := Nu._detect_agents w in
        agents !! "claude" = Some true
        /\ In (Nu._select_best_agent agents) ["gemini"; "codex"; "claude"]
        /\ agents !! Nu._select_best_agent agents = Some true
        /\ Nu.selected_agent (Nu.init w) = Nu._select_best_agent agents).
Proof.
  unfold Nu._select_best_agent, Nu.available.
  split; [|split; [|split]].
  - intros agents ->. reflexivity.
  - intros agents -> ->. reflexivity.
  - intros agents -> ->. reflexivity.
  - intros w. cbv zeta.
    destruct (detect_agents_lookup w) as (Hg & Hc & Hcl).
    rewrite Hg, Hc. simpl.
    destruct (Nu.probe w "gemini") eqn:G, (Nu.probe w "codex") eqn:C;
      simpl; rewrite ?Hg, ?Hc;
      (repeat split; auto);
      unfold Nu._select_best_agent, Nu.available; by rewrite ?Hg, ?Hc.
Qed.

Example select_both_available :
  Nu._select_best_agent (<["claude" := true]> (<["codex" := true]> (<["gemini" := true]> ∅)))
  = "gemini".
Proof. reflexivity. Qed.

Example select_offline :
  Nu._select_best_agent (Nu._detect_agents Sample.offline) = "claude".
Proof. reflexivity. Qed.

(** ** The priority deployment *)

Lemma smithery_always_available (file_contents : gmap string string) :
  Scripts.is_available (Scripts._analyze_deployment_options file_contents) "smithery"
  = true.
Proof.
  unfold Scripts._analyze_deployment_options, Scripts.is_available,
    Scripts.mark_available.
  rewrite lookup_insert_eq. simpl. by rewrite lookup_insert_eq.
Qed.

(** C8, as the claim states it, fails: with a Dockerfile and a
    package.json among the file contents the package indicator and the
    docker indicator are both detected and the choice is smithery; with
    only a Dockerfile it is smithery too; and with no file at all it is
    smithery, not manual. *)
Lemma priority_deployment_counterexample :
  let both : gmap string string :=
    <["package.json" := "{}"]> (<["Dockerfile" := "FROM node:20"]> ∅) in
  let docker_only : gmap string string := <["Dockerfile" := "FROM node:20"]> ∅ in
  let d_both := Scripts._analyze_deployment_options both in
  let d_docker := Scripts._analyze_deployment_options docker_only in
  let d_none := Scripts._analyze_deployment_options ∅ in
  Spec.claimed_priority d_both = Some "npm"
  /\ Scripts._determine_priority_deployment d_both = "smithery"
  /\ Spec.claimed_priority d_docker = Some "docker"
  /\ Scripts._determine_priority_deployment d_docker = "smithery"
  /\ Scripts.is_available d_none "npm" = false
  /\ Scripts.is_available d_none "docker" = false
  /\ Scripts.is_available d_none "local" = false
  /\ Scripts._determine_priority_deployment d_none = "smithery".
Proof. cbv zeta. repeat split; vm_compute; reflexivity. Qed.

(** C8, amended. The choice is the first available of smithery, npm,
    local, docker, in this order, and manual exactly when none of the
    four is marked available; the deployment analysis marks smithery
    available whatever the file contents, so that the choice of a run is
    always smithery. *)
Theorem determine_priority_deployment_order :
  (forall deployment_info,
      Scripts._determine_priority_deployment deployment_info
      = default "manual"
          (List.find (Scripts.is_available deployment_info)
                     ["smithery"; "npm"; "local"; "docker"]))
  /\ (forall deployment_info,
        Scripts._determine_priority_deployment deployment_info = "manual"
        <-> forallb (fun name => negb (Scripts.is_available deployment_info name))
                    ["smithery"; "npm"; "local"; "docker"] = true)
  /\ (forall file_contents,
        Scripts._determine_priority_deployment
          (Scripts._analyze_deployment_options file_contents) = "smithery")
  /\ (forall owner repo, Scripts.priority_deployment_of_run owner repo = "smithery").
Proof.
  split; [|split; [|split]].
  - intros d. unfold Scripts._determine_priority_deployment. simpl.
    by repeat destruct (Scripts.is_available d _).
  - intros d. unfold Scripts._determine_priority_deployment. simpl.
    repeat destruct (Scripts.is_available d _); simpl; split; congruence.
  - intros fc. unfold Scripts._determine_priority_deployment.
    by rewrite smithery_always_available.
  - intros owner repo. unfold Scripts.priority_deployment_of_run,
      Scripts._determine_priority_deployment.
    by rewrite smithery_always_available.
Qed.

(** ** Dictionaries *)

Module DictFacts.

Lemma get_set_eq (k : string) (v : json) (d : dict) :
  Dict.get k (Dict.set k v d) = Some v.
Proof.
  induction d as [|[k' v'] d IH]; simpl.
  - by rewrite String.eqb_refl.
  - destruct (String.eqb k' k) eqn:E; simpl; by rewrite E.
Qed.

Lemma get_set_ne (k k' : string) (v : json) (d : dict) :
  k <> k' -> Dict.get k' (Dict.set k v d) = Dict.get k' d.
Proof.
  intros Hne. induction d as [|[k0 v0] d IH]; simpl.
  - destruct (String.eqb_spec k k'); [done|reflexivity].
  - destruct (String.eqb_spec k0 k) as [->|Hk]; simpl.
    + destruct (String.eqb_spec k k'); [done|reflexivity].
    + destruct (String.eqb_spec k0 k'); [reflexivity|exact IH].
Qed.

Lemma keys_set_present (k : string) (v v0 : json) (d : dict) :
  Dict.get k d = Some v0 -> Dict.keys (Dict.set k v d) = Dict.keys d.
Proof.
  unfold Dict.keys. induction d as [|[k' v'] d IH]; simpl; [discriminate|].
  destruct (String.eqb k' k); simpl; [reflexivity|].
  intros H. by rewrite IH.
Qed.

Lemma keys_set_incl (k k' : string) (v : json) (d : dict) :
  In k' (Dict.keys (Dict.set k v d)) -> k' = k \/ In k' (Dict.keys d).
Proof.
  unfold Dict.keys. induction d as [|[k0 v0] d IH]; simpl.
  - intros [<-|[]]. auto.
  - destruct (String.eqb k0 k); simpl; intros [<-|H]; auto.
    destruct (IH H); auto.
Qed.

Lemma get_In_keys (k : string) (v : json) (d : dict) :
  Dict.get k d = Some v -> In k (Dict.keys d).
Proof.
  unfold Dict.keys. induction d as [|[k0 v0] d IH]; simpl; [discriminate|].
  destruct (String.eqb_spec k0 k) as [->|_]; auto.
Qed.

End DictFacts.

(** ** File contents *)

Lemma copy_requested_keys (file_paths : list string) (files_data : dict) :
  forall (acc : dict) (k : string),
    In k (Dict.keys (Nu.copy_requested file_paths files_data acc)) ->
    In k (Dict.keys acc)
    \/ (In k file_paths /\ In k (Dict.keys files_data)).
Proof.
  induction file_paths as [|f rest IH]; simpl; intros acc k H; [auto|].
  destruct (Dict.get f files_data) as [v|] eqn:G.
  - destruct (IH _ _ H) as [H'|[H1 H2]]; [|auto].
    destruct (DictFacts.keys_set_incl _ _ _ _ H') as [->|H'']; [|auto].
    right. eauto using DictFacts.get_In_keys.
  - destruct (IH _ _ H) as [H'|[H1 H2]]; auto.
Qed.

(** C10. Whatever the ingestion answers, every key of the map that
    [_extract_file_contents] returns is one of the requested paths (and a
    key of the parsed answer): a key of the answer that was not requested
    is not in the map. An empty request gives the empty map, without any
    call. *)
Theorem extract_file_contents_keys
    (json_loads : string -> option json) (json_dumps : json -> string)
    (w : world) (owner repo : string) (file_paths : list string)
    (contents : dict) :
  Nu._extract_file_contents json_loads json_dumps w owner repo file_paths
  = Ok contents ->
  (forall k, In k (Dict.keys contents) -> In k file_paths)
  /\ (forall k, ~ In k file_paths -> Dict.get k contents = None)
  /\ Nu._extract_file_contents json_loads json_dumps w owner repo [] = Ok [].
Proof.
  intros H.
  assert (Hkeys : forall k, In k (Dict.keys contents) -> In k file_paths).
  { revert H. unfold Nu._extract_file_contents.
    destruct file_paths as [|f rest]; [by intros [= <-]|].
    set (paths := f :: rest). unfold run.
    destruct (subprocess_run w _ _) as [rc out err| |]; simpl;
      [|by intros [= <-]|discriminate].
    destruct (rc =? 0)%Z; [|by intros [= <-]].
    destruct (ExtractFacts.extract_json_cases json_loads (Py.strip out))
      as [[v ->]|[->| ->]]; simpl; try (by intros [= <-]).
    intros [= <-] k Hk. destruct v as [| | | | | |d]; try done.
    destruct (copy_requested_keys paths d [] k Hk) as [[]|[? _]]. assumption. }
  split; [exact Hkeys|]. split; [|reflexivity].
  intros k Hk. destruct (Dict.get k contents) eqn:G; [|reflexivity].
  exfalso. eauto using DictFacts.get_In_keys.
Qed.

Lemma extract_file_contents_keys_witness :
  Nu._extract_file_contents JsonReader.loads Sample.dumps_names Sample.generous
    "acme" "widget-mcp" ["src/index.ts"; "README.md"]
  = Ok [("src/index.ts", JStr "export {}")]
  /\ (forall k, In k (Dict.keys [("src/index.ts", JStr "export {}")]) ->
                In k ["src/index.ts"; "README.md"])
  /\ (forall k, ~ In k ["src/index.ts"; "README.md"] ->
                Dict.get k [("src/index.ts", JStr "export {}")] = None)
  /\ Nu._extract_file_contents JsonReader.loads Sample.dumps_names Sample.generous
       "acme" "widget-mcp" [] = Ok [].
Proof.
  assert (E : Nu._extract_file_contents JsonReader.loads Sample.dumps_names
                Sample.generous "acme" "widget-mcp" ["src/index.ts"; "README.md"]
              = Ok [("src/index.ts", JStr "export {}")]) by (vm_compute; reflexivity).
  split; [exact E|].
  exact (extract_file_contents_keys _ _ _ _ _ _ _ E).
Defined.

(** ** The fallback record *)

Lemma has_sections_stamped (template out : dict) (stamped : dict) :
  Dict.get "metadata" out = Some (JObj stamped) ->
  (forall k, k <> "metadata" -> Dict.get k out = Dict.get k template) ->
  Spec.has_sections template = true -> Spec.has_sections out = true.
Proof.
  intros Hm Hother. unfold Spec.has_sections, Spec.sections. simpl.
  rewrite Hm, !Hother by discriminate. simpl.
  intros H. by apply andb_prop in H as [_ ->].
Qed.

(** C5. On a template whose metadata section is a mapping, the fallback
    returns the template with [analysis_date] and [generated_by] set in
    that section: the other keys of the section, the other sections and
    the order of the keys are those of the template, so that a template
    with the seven sections gives a record with the seven sections. *)
Theorem fallback_config_frame (json_loads : string -> option json)
    (w : world) (text : string) (template metadata : dict) :
  template_text w = Some text ->
  json_loads text = Some (JObj template) ->
  Dict.get "metadata" template = Some (JObj metadata) ->
  exists out,
    Nu._fallback_config json_loads w = Ok (JObj out)
    /\ Spec.stamped_from template metadata (now_isoformat w) out.
Proof.
  intros Ht Hl Hm.
  unfold Nu._fallback_config, Nu.load_template, loads. rewrite Ht, Hl. simpl.
  unfold Dyn.setitem2, Dyn.getitem. simpl. rewrite Hm. simpl.
  rewrite DictFacts.get_set_eq. simpl.
  eexists. split; [reflexivity|].
  set (m1 := Dict.set "analysis_date" _ metadata).
  set (m2 := Dict.set "generated_by" _ m1).
  set (d1 := Dict.set "metadata" (JObj m1) template).
  assert (G : Dict.get "metadata" (Dict.set "metadata" (JObj m2) d1) = Some (JObj m2))
    by apply DictFacts.get_set_eq.
  assert (O : forall k, k <> "metadata" ->
                Dict.get k (Dict.set "metadata" (JObj m2) d1) = Dict.get k template).
  { intros k Hk. unfold d1. by rewrite !DictFacts.get_set_ne. }
  exists m2. split; [exact G|]. split; [|split; [|split; [|split; [|split]]]].
  - unfold m2, m1. rewrite DictFacts.get_set_ne by discriminate.
    apply DictFacts.get_set_eq.
  - apply DictFacts.get_set_eq.
  - intros k H1 H2. unfold m2, m1. by rewrite !DictFacts.get_set_ne.
  - exact O.
  - unfold d1.
    rewrite (DictFacts.keys_set_present _ _ (JObj m1)) by apply DictFacts.get_set_eq.
    by apply (DictFacts.keys_set_present _ _ (JObj metadata)).
  - by apply (has_sections_stamped template _ m2).
Qed.

(** The theorem at work on the sample template: the record has the seven
    sections and differs from the template by the two stamps. *)
Lemma fallback_config_frame_witness :
  exists template metadata,
    JsonReader.loads Sample.template = Some (JObj template)
    /\ Dict.get "metadata" template = Some (JObj metadata)
    /\ Spec.has_sections template = true
    /\ exists out,
         Nu._fallback_config JsonReader.loads Sample.offline = Ok (JObj out)
         /\ Spec.stamped_from template metadata (now_isoformat Sample.offline) out.
Proof.
  eexists. eexists.
  split; [vm_compute; reflexivity|].
  split; [vm_compute; reflexivity|].
  split; [vm_compute; reflexivity|].
  apply (fallback_config_frame JsonReader.loads Sample.offline Sample.template);
    vm_compute; reflexivity.
Defined.

Example fallback_on_sample :
  Nu._fallback_config JsonReader.loads Sample.offline
  = Ok (JObj
          [ ("metadata",
             JObj [ ("server_id", JStr "server-name"); ("tools", JArr []);
                    ("analysis_date", JStr "2025-06-01T12:00:00");
                    ("generated_by", JStr "fallback_generator") ]);
            ("deployment", JObj [("smithery", JObj [])]);
            ("automation", JObj [("enabled", JBool false)]);
            ("integration", JObj [("mcp_servers", JArr [])]);
            ("security", JObj [("methods", JArr [])]);
            ("monitoring", JObj [("timeout", JInt 5000)]);
            ("maintenance", JObj [("backup_required", JBool false)]) ]).
Proof. vm_compute. reflexivity. Qed.

(** A template without a metadata section makes the fallback raise. *)
Example fallback_without_metadata :
  Nu._fallback_config JsonReader.loads
    {| subprocess_run := fun _ _ => TimedOut;
       template_text := Some "{}";
       now_isoformat := "2025-06-01T12:00:00";
       claude_hq_dir := "/srv/claude-hq";
       temp_dir := "/tmp/mcp_analysis_k3" |}
  = Raise (KeyError "metadata").
Proof. vm_compute. reflexivity. Qed.

(** ** Key-file selection *)

Module KeyFileFacts.
Import Nu.
Local Open Scope list_scope.

Lemma scan_strings (pattern : string) (tree_files : list string) :
  forall key_files,
    scan pattern (JStr <$> tree_files) key_files
    = Ok (scan_str pattern tree_files key_files).
Proof.
  induction tree_files as [|f rest IH]; simpl; intros kf; [reflexivity|].
  destruct (matches pattern f && negb (listed f kf)); apply IH.
Qed.

Lemma select_strings (patterns tree_files : list string) :
  forall key_files,
    select patterns (JStr <$> tree_files) key_files
    = Ok (select_str patterns tree_files key_files).
Proof.
  induction patterns as [|p ps IH]; simpl; intros kf; [reflexivity|].
  rewrite scan_strings. simpl. apply IH.
Qed.

Lemma listed_elem_of (f : string) (key_files : list string) :
  listed f key_files = true <-> f ∈ key_files.
Proof.
  unfold listed. rewrite existsb_exists. split.
  - intros (x & Hx & ->%String.eqb_eq). by apply list_elem_of_In.
  - intros H. exists f. split; [by apply list_elem_of_In|apply String.eqb_refl].
Qed.

(** One inner loop appends, without repetition, the matching paths that
    are not yet selected, and leaves every matching path selected. *)
Lemma scan_str_spec (pattern : string) (tree_files : list string) :
  forall key_files,
    exists new,
      scan_str pattern tree_files key_files = key_files ++ new
      /\ (NoDup key_files -> NoDup (key_files ++ new))
      /\ (forall f, f ∈ new ->
                    f ∈ tree_files /\ matches pattern f = true /\ f ∉ key_files)
      /\ (forall f, f ∈ tree_files -> matches pattern f = true ->
                    f ∈ key_files ++ new).
Proof.
  induction tree_files as [|f rest IH]; simpl; intros kf.
  - exists []. rewrite app_nil_r. split; [done|]. split; [done|].
    split; intros g Hg; by inv Hg.
  - destruct (matches pattern f) eqn:M; simpl.
    + destruct (listed f kf) eqn:L; simpl.
      * apply listed_elem_of in L.
        destruct (IH kf) as (new & -> & Hnd & Hnew & Hcov).
        exists new. split; [done|]. split; [done|]. split.
        -- intros g Hg. destruct (Hnew g Hg) as (? & ? & ?).
           split; [by right|done].
        -- intros g Hg Hm. inv Hg; [|by auto].
           apply elem_of_app. by left.
      * assert (f ∉ kf) as Hf.
        { intros Hin%listed_elem_of. congruence. }
        destruct (IH (kf ++ [f])) as (new & -> & Hnd & Hnew & Hcov).
        exists (f :: new). rewrite <- app_assoc. simpl.
        split; [done|]. split.
        -- intros Hk.
           replace (kf ++ f :: new) with ((kf ++ [f]) ++ new)
             by (by rewrite <- app_assoc).
           apply Hnd.
           apply NoDup_app. split; [done|]. split; [|apply NoDup_singleton].
           intros x Hx ->%list_elem_of_singleton. done.
        -- split.
           ++ intros g Hg. inv Hg.
              ** split; [by left|done].
              ** destruct (Hnew g) as (? & ? & Hn); [done|].
                 split; [by right|]. split; [done|].
                 intros Hin. apply Hn. apply elem_of_app. by left.
           ++ intros g Hg Hm.
              replace (kf ++ f :: new) with ((kf ++ [f]) ++ new)
                by (by rewrite <- app_assoc).
              inv Hg; [|by auto].
              apply elem_of_app. left. apply elem_of_app. right. by left.
    + destruct (IH kf) as (new & -> & Hnd & Hnew & Hcov).
      exists new. split; [done|]. split; [done|]. split.
      * intros g Hg. destruct (Hnew g Hg) as (? & ? & ?). split; [by right|done].
      * intros g Hg Hm. inv Hg; [congruence|by auto].
Qed.

(** The rank of a path in a list of patterns that starts with [done]. *)
Lemma rank_in_matched (done todo : list string) (f : string) :
  (exists p, p ∈ done /\ matches p f = true) ->
  Spec.rank_in (done ++ todo) f < length done.
Proof.
  induction done as [|q done IH]; simpl; intros (p & Hp & Hm).
  - by inv Hp.
  - destruct (matches q f) eqn:Mq; [lia|].
    inv Hp; [congruence|].
    assert (Spec.rank_in (done ++ todo) f < length done) by eauto. lia.
Qed.

Lemma rank_in_unmatched (done todo : list string) (f : string) :
  (forall p, p ∈ done -> matches p f = false) ->
  Spec.rank_in (done ++ todo) f = length done + Spec.rank_in todo f.
Proof.
  induction done as [|q done IH]; simpl; intros H; [reflexivity|].
  rewrite (H q) by left. rewrite IH; [lia|].
  intros p Hp. apply H. by right.
Qed.

Section Invariant.
Variable all tree_files : list string.

Local Abbreviation selected := (Spec.selected all tree_files).
Local Abbreviation rank_le := (Spec.rank_le all).

Lemma selected_nil : selected [] [].
Proof.
  split.
  - apply NoDup_nil_2.
  - intros f Hf. by inv Hf.
  - intros f p _ Hp. by inv Hp.
  - constructor.
Qed.

Lemma selected_step (done todo : list string) (p : string) (key_files : list string) :
  all = done ++ p :: todo ->
  selected done key_files ->
  selected (done ++ [p]) (scan_str p tree_files key_files).
Proof.
  intros Hall [Hnd Hs Hc Hso].
  destruct (scan_str_spec p tree_files key_files) as (new & -> & Hnd' & Hnew & Hcov).
  assert (Hrank_new : forall f, f ∈ new -> Spec.rank_in all f = length done).
  { intros f Hf. destruct (Hnew f Hf) as (Hin & Hm & Hnot).
    rewrite Hall, rank_in_unmatched.
    - simpl. rewrite Hm. lia.
    - intros q Hq. destruct (matches q f) eqn:Mq; [|reflexivity].
      exfalso. eauto. }
  assert (Hrank_old : forall f, f ∈ key_files -> Spec.rank_in all f < length done).
  { intros f Hf. rewrite Hall. apply rank_in_matched. by apply Hs. }
  split.
  - auto.
  - intros f [Hf|Hf]%elem_of_app.
    + destruct (Hs f Hf) as (? & q & ? & ?). split; [done|].
      exists q. split; [|done]. apply elem_of_app. by left.
    + destruct (Hnew f Hf) as (? & ? & _). split; [done|].
      exists p. split; [|done]. apply elem_of_app. right. by left.
  - intros f q Hf [Hq|Hq]%elem_of_app Hm.
    + apply elem_of_app. left. eauto.
    + apply list_elem_of_singleton in Hq as ->. auto.
  - apply StronglySorted_app. split; [|split; [done|]].
    + intros a b Ha Hb. unfold rank_le.
      rewrite (Hrank_new b Hb). specialize (Hrank_old a Ha). lia.
    + clear -Hrank_new. induction new as [|a new IH]; constructor.
      * apply IH. intros f Hf. apply Hrank_new. by right.
      * apply Forall_forall. intros b Hb. unfold rank_le.
        rewrite (Hrank_new a) by left.
        rewrite (Hrank_new b) by (by right). lia.
Qed.

Lemma select_str_selected (todo : list string) :
  forall done key_files,
    all = done ++ todo ->
    selected done key_files ->
    selected all (select_str todo tree_files key_files).
Proof.
  induction todo as [|p todo IH]; simpl; intros done kf Hall Hsel.
  - rewrite app_nil_r in Hall. by subst.
  - apply (IH (done ++ [p])).
    + by rewrite <- app_assoc.
    + by apply (selected_step done todo).
Qed.

(** A prefix of a selection keeps what the claim is about. *)
Lemma selected_take (n : nat) (key_files : list string) :
  selected all key_files ->
  NoDup (take n key_files)
  /\ (forall f, f ∈ take n key_files ->
                f ∈ tree_files /\ exists p, p ∈ all /\ matches p f = true)
  /\ StronglySorted rank_le (take n key_files).
Proof.
  intros [Hnd Hs _ Hso]. split; [|split].
  - eapply sublist_NoDup; [exact Hnd|apply sublist_take].
  - intros f Hf. apply Hs. by apply (subseteq_take n).
  - rewrite <- (take_drop n key_files) in Hso.
    by apply StronglySorted_app_1_l in Hso.
Qed.
End Invariant.

End KeyFileFacts.

(** A selection that returns has seen nothing but strings: the first
    pattern already asks every path for its suffix. *)
Lemma scan_ok_strings (pattern : string) (tree_files : list json) :
  forall key_files key_files',
    Nu.scan pattern tree_files key_files = Ok key_files' ->
    exists paths, tree_files = JStr <$> paths.
Proof.
  induction tree_files as [|x rest IH]; simpl; intros kf kf' H.
  - by exists [].
  - destruct x as [| | | |f| |]; try discriminate.
    destruct (_ && _); apply IH in H as (paths & ->); by exists (f :: paths).
Qed.

Lemma identify_key_files_ok_strings (repo_tree repo_summary : json)
    (key_files : list string) :
  Nu._identify_key_files repo_tree repo_summary = Ok key_files ->
  exists tree_files,
    Nu.collect_tree_files repo_tree repo_summary = Ok (JStr <$> tree_files).
Proof.
  unfold Nu._identify_key_files.
  destruct (Nu.collect_tree_files repo_tree repo_summary) as [tf|e]; [|discriminate].
  cbv beta iota delta [mbind result_bind].
  destruct (Nu.select Nu.priority_patterns tf []) as [kf|e] eqn:S; [|discriminate].
  intros _. simpl in S.
  destruct (Nu.scan "package.json" tf []) as [kf1|e] eqn:S1; [|discriminate].
  apply scan_ok_strings in S1 as (paths & ->). by exists paths.
Qed.

(** C4. When the paths of the tree and of the summary are strings, the
    key-file selection returns a list of at most 15 paths, without
    repetition, each of them one of the given paths that matches a
    priority pattern (a pattern with a slash by containment, the others as
    a suffix), in the order of the priority list: the index of the first
    pattern a path matches never decreases along the list. *)
Theorem identify_key_files_bounded_unique_ordered
    (repo_tree repo_summary : json) (tree_files : list string) :
  Nu.collect_tree_files repo_tree repo_summary = Ok (JStr <$> tree_files) ->
  exists key_files,
    Nu._identify_key_files repo_tree repo_summary = Ok key_files
    /\ length key_files <= 15
    /\ NoDup key_files
    /\ (forall f, f ∈ key_files ->
          f ∈ tree_files
          /\ exists p, p ∈ Nu.priority_patterns /\ Nu.matches p f = true)
    /\ StronglySorted (fun a b => Spec.rank a <= Spec.rank b) key_files.
Proof.
  intros Hc. unfold Nu._identify_key_files. rewrite Hc.
  cbv beta iota delta [mbind result_bind].
  rewrite KeyFileFacts.select_strings.
  eexists. split; [reflexivity|].
  split; [rewrite length_take; lia|].
  apply (KeyFileFacts.selected_take Nu.priority_patterns tree_files).
  apply (KeyFileFacts.select_str_selected _ _ Nu.priority_patterns []);
    [reflexivity|apply KeyFileFacts.selected_nil].
Qed.

(** The theorem at work on the tree of the specification's example: the
    package.json and README.md matches come before the src/tools/ match. *)
Lemma identify_key_files_witness :
  Nu._identify_key_files Sample.tree (Nu.degraded_summary "acme" "widget-mcp" "Analysis failed")
  = Ok ["x/package.json"; "README.md"; "src/tools/a.ts"]
  /\ exists key_files,
       Nu._identify_key_files Sample.tree
         (Nu.degraded_summary "acme" "widget-mcp" "Analysis failed")
       = Ok key_files
       /\ length key_files <= 15
       /\ NoDup key_files
       /\ (forall f, f ∈ key_files ->
             f ∈ ["x/package.json"; "README.md"; "src/tools/a.ts"]
             /\ exists p, p ∈ Nu.priority_patterns /\ Nu.matches p f = true)
       /\ StronglySorted (fun a b => Spec.rank a <= Spec.rank b) key_files.
Proof.
  split; [vm_compute; reflexivity|].
  apply (identify_key_files_bounded_unique_ordered Sample.tree
           (Nu.degraded_summary "acme" "widget-mcp" "Analysis failed")
           ["x/package.json"; "README.md"; "src/tools/a.ts"]).
  vm_compute. reflexivity.
Defined.

Example key_files_reordered :
  Nu._identify_key_files Sample.tree_reversed Sample.summary
  = Ok ["x/package.json"; "README.md"; "src/tools/a.ts"; "LICENSE"].
Proof. vm_compute. reflexivity. Qed.

Example key_files_ranks :
  map Spec.rank ["x/package.json"; "README.md"; "src/tools/a.ts"; "LICENSE"]
  = [0; 1; 16; 27].
Proof. vm_compute. reflexivity. Qed.

(** A path that is not a string stops the selection at the first
    pattern. *)
Example key_files_non_string_path :
  Nu._identify_key_files (JObj [("tree", JArr [JObj [("path", JInt 7)]])]) (JObj [])
  = Raise AttributeError.
Proof. vm_compute. reflexivity. Qed.

(** More than fifteen matches: the first fifteen are kept. *)
Example key_files_truncated :
  Nu._identify_key_files (JObj [])
    (JObj [("files", JArr (JStr <$> Sample.package_names 20))])
  = Ok (Sample.package_names 15).
Proof. vm_compute. reflexivity. Qed.

(** * Further properties of the nu script *)

Module NuFacts.



(** What the copy loop leaves under a key. *)
Lemma copy_requested_get (file_paths : list string) (files_data : dict) :
  forall (acc : dict) (k : string),
    Dict.get k (Nu.copy_requested file_paths files_data acc)
    = if Nu.listed k file_paths
      then match Dict.get k files_data with
           | Some v => Some v
           | None => Dict.get k acc
           end
      else Dict.get k acc.
Proof.
  induction file_paths as [|f rest IH]; simpl; intros acc k; [reflexivity|].
  destruct (Dict.get f files_data) as [v|] eqn:G; rewrite IH;
    destruct (String.eqb_spec k f) as [->|Hne]; simpl.
  - rewrite G, DictFacts.get_set_eq. by destruct (Nu.listed f rest).
  - rewrite DictFacts.get_set_ne by congruence. reflexivity.
  - rewrite G. by destruct (Nu.listed f rest).
  - reflexivity.
Qed.

End NuFacts.


(** X2. When the files call ends with status 0 and its answer holds an
    object, the map returned for a non-empty request has, under every
    requested path, what the answer has under it, and nothing under any
    other key. *)
Theorem extract_file_contents_values
    (json_loads : string -> option json) (json_dumps : json -> string)
    (w : world) (owner repo : string) (file_paths : list string)
    (out err : string) (files_data : dict) :
  file_paths <> [] ->
  subprocess_run w (Nu.files_cmd json_dumps owner repo file_paths) (Some 120%Z)
  = Completed 0 out err ->
  extract_json json_loads (Py.strip out) = Ok (Some (JObj files_data)) ->
  exists contents,
    Nu._extract_file_contents json_loads json_dumps w owner repo file_paths
    = Ok contents
    /\ forall k, Dict.get k contents
                 = if Nu.listed k file_paths then Dict.get k files_data else None.
Proof.
  intros Hne Hrun Hx. unfold Nu._extract_file_contents, run.
  destruct file_paths as [|f rest]; [done|].
  rewrite Hrun. cbn [mbind result_bind returncode stdout Z.eqb].
  rewrite Hx. cbn [mbind result_bind try_except].
  eexists. split; [reflexivity|].
  intros k. rewrite NuFacts.copy_requested_get.
  destruct (Nu.listed k (f :: rest)); [|reflexivity].
  by destruct (Dict.get k files_data).
Qed.

Lemma extract_file_contents_values_witness :
  exists contents,
    Nu._extract_file_contents JsonReader.loads Sample.dumps_names Sample.generous
      "acme" "widget-mcp" ["README.md"; "src/index.ts"]
    = Ok contents
    /\ forall k, Dict.get k contents
                 = if Nu.listed k ["README.md"; "src/index.ts"]
                   then Dict.get k [ ("src/index.ts", JStr "export {}");
                                     (".env", JStr "TOKEN=1") ]
                   else None.
Proof.
  eapply (extract_file_contents_values JsonReader.loads Sample.dumps_names
            Sample.generous "acme" "widget-mcp" ["README.md"; "src/index.ts"]).
  - discriminate.
  - reflexivity.
  - vm_compute. reflexivity.
Defined.




Example generate_with_gemini_answer :
  Nu._generate_config_with_agent JsonReader.loads NuCli.with_gemini
    (Nu.init NuCli.with_gemini)
    {| Nu.ctx_owner := Some "acme"; Nu.ctx_repo := Some "widget-mcp";
       Nu.ctx_url := "https://github.com/acme/widget-mcp";
       Nu.ctx_server_name := "widget";
       Nu.ctx_summary := Sample.summary; Nu.ctx_tree := Sample.tree;
       Nu.ctx_files := [];
       Nu.ctx_timestamp := "2025-06-01T12:00:00";
       Nu.ctx_analyzer := "GitIngest + gemini";
       Nu.ctx_key_files_count := 0;
       Nu.ctx_available_agents := Nu._detect_agents NuCli.with_gemini |}
  = Ok (JObj [("metadata", JObj [("server_id", JStr "widget")])]).
Proof. vm_compute. reflexivity. Qed.

(** X5. The analyzer that [main] works with never has a backend selected
    that is not marked available: [--agent] takes effect when the named
    backend is available, which claude always is, and leaves the default
    selection in place when it is not. *)
Theorem configure_selects_available (w : world) (a : Nu.args) :
  let z := NuCli.configure w a in
  Nu.available_agents z = Nu._detect_agents w
  /\ Nu.available (Nu.available_agents z) (Nu.selected_agent z) = true
  /\ (forall name,
        Nu.agent a = Some name ->
        Nu.selected_agent z
        = if Nu.available (Nu._detect_agents w) name then name
          else Nu._select_best_agent (Nu._detect_agents w))
  /\ (Nu.agent a = None ->
      Nu.selected_agent z = Nu._select_best_agent (Nu._detect_agents w))
  /\ (Nu.agent a = Some "claude" -> Nu.selected_agent z = "claude").
Proof.
  cbv zeta.
  assert (D : Nu.available (Nu._detect_agents w)
                (Nu._select_best_agent (Nu._detect_agents w)) = true).
  { unfold Nu._select_best_agent, Nu.available.
    destruct (detect_agents_lookup w) as (Hg & Hc & Hcl).
    rewrite Hg, Hc. simpl.
    destruct (Nu.probe w "gemini") eqn:G; [by rewrite Hg|].
    destruct (Nu.probe w "codex") eqn:C; [by rewrite Hc|].
    by rewrite Hcl. }
  assert (C : Nu.available (Nu._detect_agents w) "claude" = true).
  { unfold Nu.available. by destruct (detect_agents_lookup w) as (_ & _ & ->). }
  unfold NuCli.configure, Nu.init. simpl.
  destruct (Nu.agent a) as [name|]; simpl.
  - destruct (Nu.available (Nu._detect_agents w) name) eqn:Av; simpl.
    + split; [reflexivity|]. split; [exact Av|]. split; [|split].
      * intros n [= <-]. by rewrite Av.
      * discriminate.
      * by intros [= <-].
    + split; [reflexivity|]. split; [exact D|]. split; [|split].
      * intros n [= <-]. by rewrite Av.
      * discriminate.
      * intros [= ->]. congruence.
  - split; [reflexivity|]. split; [exact D|]. split; [|split].
    + discriminate.
    + reflexivity.
    + discriminate.
Qed.

(** [main] analyses with the analyzer of [configure]. *)
Lemma main_uses_configure (json_loads : string -> option json)
    (json_dumps : json -> string) (w : world) (a : Nu.args) :
  Nu.exit_code (Nu.main json_loads json_dumps w a)
  = match Nu.analyze_repository json_loads json_dumps w (NuCli.configure w a)
            (Nu.github_url a) (Nu.server_name a) with
    | Ok config => match Nu.report config with Ok _ => 0%Z | Raise _ => 1%Z end
    | Raise _ => 1%Z
    end.
Proof.
  unfold Nu.main, NuCli.configure.
  destruct (Nu.analyze_repository _ _ _ _ _ _) as [c|e]; [|reflexivity].
  by destruct (Nu.report c).
Qed.

(** X6. The limit of 15 is the only way a matching path is left out of
    the key files: a path of the tree or of the summary that matches a
    priority pattern is selected, unless the selection is full, and then
    every selected path comes at least as early in the priority list. *)
Theorem identify_key_files_complete
    (repo_tree repo_summary : json) (tree_files : list string) :
  Nu.collect_tree_files repo_tree repo_summary = Ok (JStr <$> tree_files) ->
  exists key_files,
    Nu._identify_key_files repo_tree repo_summary = Ok key_files
    /\ forall f p,
         f ∈ tree_files -> p ∈ Nu.priority_patterns -> Nu.matches p f = true ->
         f ∈ key_files
         \/ (length key_files = 15
             /\ forall g, g ∈ key_files -> Spec.rank g <= Spec.rank f).
Proof.
  intros Hc. unfold Nu._identify_key_files. rewrite Hc.
  cbv beta iota delta [mbind result_bind].
  rewrite KeyFileFacts.select_strings.
  eexists. split; [reflexivity|].
  set (full := Nu.select_str Nu.priority_patterns tree_files []).
  assert (S : Spec.selected Nu.priority_patterns tree_files Nu.priority_patterns full).
  { apply (KeyFileFacts.select_str_selected _ _ Nu.priority_patterns []);
      [reflexivity|apply KeyFileFacts.selected_nil]. }
  destruct S as [_ _ Hcomp Hsorted].
  intros f p Hf Hp Hm.
  pose proof (Hcomp f p Hf Hp Hm) as Hin.
  rewrite <- (take_drop 15 full) in Hin, Hsorted.
  apply elem_of_app in Hin as [Hin|Hin]; [by left|right].
  split.
  - rewrite length_take.
    assert (15 < length full); [|lia].
    destruct (decide (15 < length full)) as [?|Hge]; [done|].
    rewrite drop_ge in Hin by lia. by inv Hin.
  - intros g Hg.
    apply (StronglySorted_app_1_elem_of _ _ _ g f Hsorted Hg Hin).
Qed.

Lemma identify_key_files_complete_witness :
  exists key_files,
    Nu._identify_key_files Sample.tree_reversed Sample.summary = Ok key_files
    /\ forall f p,
         f ∈ ["src/tools/a.ts"; "notes.txt"; "README.md"; "x/package.json";
              "README.md"; "LICENSE"] ->
         p ∈ Nu.priority_patterns -> Nu.matches p f = true ->
         f ∈ key_files
         \/ (length key_files = 15
             /\ forall g, g ∈ key_files -> Spec.rank g <= Spec.rank f).
Proof.
  apply (identify_key_files_complete Sample.tree_reversed Sample.summary).
  vm_compute. reflexivity.
Defined.

(** * The forms of a repository URL *)

Module UrlFormFacts.
Import Re Url UrlForms.
Local Open Scope list_scope.

Lemma chars_app (s t : string) : chars (s ++ t)%string = chars s ++ chars t.
Proof. induction s as [|a s IH]; simpl; [reflexivity|]. by rewrite <- IH. Qed.

Lemma string_of_chars (s : string) : string_of_list_ascii (chars s) = s.
Proof. apply string_of_list_ascii_of_string. Qed.

Lemma has_char_chars (c : ascii) (s : string) :
  Py.has_char c s = false -> Forall (fun b => Ascii.eqb b c = false) (chars s).
Proof.
  induction s as [|a s IH]; simpl; [constructor|].
  destruct (Ascii.eqb a c) eqn:E; [discriminate|]. simpl. auto.
Qed.

Lemma segment_chars (s : string) :
  segment s = true ->
  chars s <> [] /\ Forall (fun b => test (NotChar slash) b = true) (chars s).
Proof.
  unfold segment. intros [Hne Hs]%andb_prop. split.
  - destruct s; [discriminate|]. discriminate.
  - apply negb_true_iff, has_char_chars in Hs.
    eapply Forall_impl; [exact Hs|]. simpl. by intros b ->.
Qed.

(** A literal is read when the text starts with it, and only then. *)
Lemma rmatch_lit (l : string) (r : regex) :
  forall s g k,
    rmatch (lit l r) s g k
    = if starts (chars l) s then rmatch r (drop (length (chars l)) s) g k else None.
Proof.
  induction l as [|a l IH]; simpl; intros s g k; [reflexivity|].
  destruct s as [|b s]; [reflexivity|].
  destruct (Ascii.eqb b a); simpl; [apply IH|reflexivity].
Qed.

Lemma starts_app (l s : list ascii) : starts l (l ++ s) = true.
Proof.
  induction l as [|a l IH]; simpl; [reflexivity|].
  by rewrite Ascii.eqb_refl.
Qed.

Lemma starts_inv (l s : list ascii) :
  starts l s = true -> exists t, s = l ++ t.
Proof.
  revert s. induction l as [|a l IH]; simpl; intros s H; [by exists s|].
  destruct s as [|b s]; [discriminate|].
  apply andb_prop in H as [->%Ascii.eqb_eq H].
  destruct (IH _ H) as (t & ->). by exists t.
Qed.

Lemma rmatch_lit_app (l : string) (r : regex) (s : list ascii) g k :
  rmatch (lit l r) (chars l ++ s) g k = rmatch r s g k.
Proof. by rewrite rmatch_lit, starts_app, drop_app_length. Qed.

(** A greedy repetition that is followed by something it cannot read
    takes all it can, when the rest of the pattern agrees. *)
Lemma star_greedy_stop {A : Type} (p : ascii -> bool) (w s' : list ascii)
    (k : list ascii -> option A) (x : A) :
  Forall (fun b => p b = true) w ->
  k s' = Some x ->
  match s' with [] => True | c :: _ => p c = false end ->
  star_greedy p (w ++ s') k = Some x.
Proof.
  intros Hw Hk Hs. induction Hw as [|a w Ha Hw IH]; simpl.
  - destruct s' as [|c s']; simpl; [exact Hk|]. by rewrite Hs.
  - by rewrite Ha, IH.
Qed.

Lemma plus_greedy_stop {A : Type} (p : ascii -> bool) (w s' : list ascii)
    (k : list ascii -> option A) (x : A) :
  w <> [] ->
  Forall (fun b => p b = true) w ->
  k s' = Some x ->
  match s' with [] => True | c :: _ => p c = false end ->
  plus_greedy p (w ++ s') k = Some x.
Proof.
  intros Hne Hw Hk Hs. destruct w as [|a w]; [done|].
  inv Hw. simpl. rewrite H1. by apply star_greedy_stop.
Qed.

(** A lazy repetition stops at the first place where the rest of the
    pattern agrees. *)
Lemma plus_lazy_first {A : Type} (p : ascii -> bool) (w s' : list ascii)
    (k : list ascii -> option A) (x : A) :
  w <> [] ->
  Forall (fun b => p b = true) w ->
  k s' = Some x ->
  (forall u v, w = u ++ v -> u <> [] -> v <> [] -> k (v ++ s') = None) ->
  plus_lazy p (w ++ s') k = Some x.
Proof.
  intros Hne Hw. revert Hne.
  induction Hw as [|a w Ha Hw IH]; intros Hne Hk Hsplit; [done|].
  simpl. rewrite Ha.
  destruct w as [|b w].
  - simpl. by rewrite Hk.
  - assert (H0 : k ((b :: w) ++ s') = None) by (by apply (Hsplit [a])).
    simpl in H0. simpl. rewrite H0.
    apply IH; [done|exact Hk|].
    intros u v E Hu Hv. apply (Hsplit (a :: u) v); [by rewrite E|done|done].
Qed.

(** What the end of the plain pattern reads. *)
Lemma accept2_spec (s : list ascii) (g : groups) :
  rmatch (Cat (Opt (One (Char slash))) Eol) s g finish
  = if accept2 s then Some g else None.
Proof.
  unfold accept2, finish. simpl.
  destruct s as [|a s]; simpl; [reflexivity|].
  destruct (Ascii.eqb a slash); simpl.
  - destruct (at_end s); simpl; [by rewrite orb_true_r|].
    rewrite orb_false_r. by destruct (at_end (a :: s)).
  - rewrite orb_false_r. by destruct (at_end (a :: s)).
Qed.

Lemma accepts_spec (s : list ascii) (g : groups) :
  rmatch plain_end s g finish = if accepts s then Some g else None.
Proof.
  unfold plain_end, accepts, accept2, finish, dot_git, at_end.
  repeat (simpl;
          match goal with
          | |- context [Ascii.eqb ?a ?c] => destruct (Ascii.eqb a c) eqn:?
          | |- context [match ?l with [] => _ | _ :: _ => _ end] =>
              is_var l; destruct l
          end);
    simpl; reflexivity.
Qed.

Lemma accept2_cons (a : ascii) (s : list ascii) :
  Ascii.eqb a slash = false -> Ascii.eqb a newline = false ->
  accept2 (a :: s) = false.
Proof.
  intros Hs Hn. unfold accept2, at_end. rewrite Hs. unfold newline in Hn.
  destruct s; simpl; by rewrite ?Hn.
Qed.

Lemma accepts_tail (tl : string) : In tl tails -> accepts (chars tl) = true.
Proof. simpl. intros [<-|[<-|[<-|[<-|[]]]]]; reflexivity. Qed.

(** After a part of a project name, the end of the plain pattern reads
    nothing. *)
Lemma accepts_after (v : list ascii) (tl : string) :
  v <> [] ->
  Forall (fun b => Ascii.eqb b slash = false) v ->
  Forall (fun b => Ascii.eqb b newline = false) v ->
  v <> dot_git ->
  In tl tails ->
  accepts (v ++ chars tl) = false.
Proof.
  intros Hne Hs Hn Hg Htl. unfold accepts.
  destruct v as [|a v]; [done|].
  inv Hs. inv Hn.
  change ((a :: v) ++ chars tl) with (a :: (v ++ chars tl)).
  rewrite (accept2_cons a) by assumption. rewrite orb_false_r.
  destruct v as [|b [|c [|d [|e v]]]].
  - simpl in Htl. unfold dot_git.
    destruct Htl as [<-|[<-|[<-|[<-|[]]]]]; simpl;
      repeat (destruct (Ascii.eqb _ _); simpl; try reflexivity).
  - simpl in Htl. unfold dot_git.
    destruct Htl as [<-|[<-|[<-|[<-|[]]]]]; simpl;
      repeat (destruct (Ascii.eqb _ _); simpl; try reflexivity).
  - simpl in Htl. unfold dot_git.
    destruct Htl as [<-|[<-|[<-|[<-|[]]]]]; simpl;
      repeat (destruct (Ascii.eqb _ _); simpl; try reflexivity).
  - unfold dot_git in *. simpl.
    destruct (Ascii.eqb_spec a "."); [|reflexivity].
    destruct (Ascii.eqb_spec b "g"); [|reflexivity].
    destruct (Ascii.eqb_spec c "i"); [|reflexivity].
    destruct (Ascii.eqb_spec d "t"); [|reflexivity].
    subst. done.
  - simpl.
    repeat match goal with H : Forall _ (_ :: _) |- _ => inv H end.
    rewrite (accept2_cons e) by assumption. apply andb_false_r.
Qed.

Lemma ends_dot_git_app (u : list ascii) :
  u <> [] -> ends_dot_git (u ++ dot_git) = true.
Proof.
  induction u as [|a u IH]; [done|]. intros _. simpl.
  destruct u as [|b u]; simpl.
  - reflexivity.
  - simpl in IH. rewrite IH by done. apply orb_true_r.
Qed.

Lemma project_chars (s : string) :
  project s = true ->
  chars s <> []
  /\ Forall (fun b => test (NotChar slash) b = true) (chars s)
  /\ Forall (fun b => Ascii.eqb b slash = false) (chars s)
  /\ Forall (fun b => Ascii.eqb b newline = false) (chars s)
  /\ ends_dot_git (chars s) = false.
Proof.
  unfold project. intros [[Hseg Hn]%andb_prop Hg]%andb_prop.
  destruct (segment_chars s Hseg) as [Hne Hp].
  repeat split; try assumption.
  - unfold segment in Hseg. apply andb_prop in Hseg as [_ H].
    by apply has_char_chars, negb_true_iff.
  - by apply has_char_chars, negb_true_iff.
  - by apply negb_true_iff.
Qed.

Lemma consumed_app_cons (w : list ascii) (c : ascii) (s : list ascii) :
  consumed (w ++ c :: s) (c :: s) = w.
Proof. apply ReFacts.consumed_app. Qed.

(** The equations of the matcher, one constructor at a time. *)
Lemma rmatch_cat r1 r2 s g k :
  rmatch (Cat r1 r2) s g k = rmatch r1 s g (fun s1 g1 => rmatch r2 s1 g1 k).
Proof. reflexivity. Qed.

Lemma rmatch_group_greedy n c s g k :
  rmatch (Group n (Plus c true)) s g k
  = plus_greedy (test c) s (fun s' => k s' (set_group n (consumed s s') g)).
Proof. reflexivity. Qed.

Lemma rmatch_group_lazy n c s g k :
  rmatch (Group n (Plus c false)) s g k
  = plus_lazy (test c) s (fun s' => k s' (set_group n (consumed s s') g)).
Proof. reflexivity. Qed.

Lemma rmatch_char c s g k : rmatch (One (Char c)) (c :: s) g k = k s g.
Proof. simpl. by rewrite Ascii.eqb_refl. Qed.

Lemma pattern_plain_eq :
  pattern_plain
  = lit host
      (Cat (Group 1 (Plus (NotChar slash) true))
      (Cat (One (Char slash))
      (Cat (Group 2 (Plus (NotChar slash) false)) plain_end))).
Proof. reflexivity. Qed.

Lemma pattern_sub_eq (dir : string) :
  pattern_sub dir
  = lit host
      (Cat (Group 1 (Plus (NotChar slash) true))
      (Cat (One (Char slash))
      (Cat (Group 2 (Plus (NotChar slash) true))
           (lit ("/" ++ dir) (One (Char slash)))))).
Proof. reflexivity. Qed.

(** The plain pattern, tried where the host name starts. *)
Lemma plain_at_host (owner repo tl : string) (rest : list ascii) :
  segment owner = true -> project repo = true -> In tl tails ->
  rest = chars owner ++ slash :: chars repo ++ chars tl ->
  rmatch pattern_plain (chars host ++ rest) no_groups finish
  = Some (set_group 2 (chars repo) (set_group 1 (chars owner) no_groups)).
Proof.
  intros Ho Hr Htl ->.
  destruct (segment_chars owner Ho) as [Hone Hop].
  destruct (project_chars repo Hr) as (Hrne & Hrp & Hrs & Hrn & Hrg).
  rewrite pattern_plain_eq, rmatch_lit_app, rmatch_cat, rmatch_group_greedy.
  apply plus_greedy_stop; [assumption|assumption| |reflexivity].
  rewrite consumed_app_cons, rmatch_cat, rmatch_char, rmatch_cat, rmatch_group_lazy.
  apply plus_lazy_first; [assumption|assumption| |].
  - by rewrite ReFacts.consumed_app, accepts_spec, accepts_tail.
  - intros u v E Hu Hv.
    rewrite accepts_spec, accepts_after; try done.
    + rewrite E in Hrs. by apply Forall_app in Hrs as [_ ?].
    + rewrite E in Hrn. by apply Forall_app in Hrn as [_ ?].
    + intros ->. rewrite E, ends_dot_git_app in Hrg; done.
Qed.

(** The pattern of a tree or blob URL, tried where the host name
    starts. *)
Lemma sub_at_host (owner repo dir : string) (rest : list ascii) :
  segment owner = true -> segment repo = true ->
  rmatch (pattern_sub dir)
    (chars host ++ chars owner ++ slash :: chars repo
       ++ chars ("/" ++ dir) ++ slash :: rest)
    no_groups finish
  = Some (set_group 2 (chars repo) (set_group 1 (chars owner) no_groups)).
Proof.
  intros Ho Hr.
  destruct (segment_chars owner Ho) as [Hone Hop].
  destruct (segment_chars repo Hr) as [Hrne Hrp].
  rewrite pattern_sub_eq, rmatch_lit_app, rmatch_cat, rmatch_group_greedy.
  apply plus_greedy_stop; [assumption|assumption| |reflexivity].
  rewrite consumed_app_cons, rmatch_cat, rmatch_char, rmatch_cat, rmatch_group_greedy.
  apply plus_greedy_stop; [assumption|assumption| |reflexivity].
  rewrite ReFacts.consumed_app, rmatch_lit_app. by rewrite rmatch_char.
Qed.

(** No match starts before the host name when the text before it has no
    [g]. *)
Lemma search_from_skip (p : regex) (l : string) (r : regex) (pre : string)
    (s : list ascii) :
  p = lit (String "g" l) r ->
  Py.has_char "g" pre = false ->
  search_from p (chars pre ++ s) = search_from p s.
Proof.
  intros ->.
  induction pre as [|a pre IH]; simpl; [reflexivity|].
  destruct (Ascii.eqb a "g") eqn:E; [discriminate|]. simpl. exact IH.
Qed.

Lemma search_from_here (r : regex) (s : list ascii) (g : groups) :
  rmatch r s no_groups finish = Some g -> search_from r s = Some g.
Proof.
  intros H. destruct s; simpl; unfold finish in H; by rewrite H.
Qed.

(** Where a match that [re.search] finds starts. *)
Lemma search_from_sound_suffix (r : regex) (s : list ascii) (g : groups) :
  search_from r s = Some g ->
  exists u s0 s', s = u ++ s0 /\ den r s0 no_groups s' g.
Proof.
  induction s as [|a s IH]; simpl.
  - destruct (rmatch r [] no_groups _) as [y|] eqn:Hm; [|discriminate].
    intros [= ->]. apply ReFacts.rmatch_sound in Hm as (s' & g' & Hd & [= ->]).
    by exists [], [], s'.
  - destruct (rmatch r (a :: s) no_groups _) as [y|] eqn:Hm.
    + intros [= ->]. apply ReFacts.rmatch_sound in Hm as (s' & g' & Hd & [= ->]).
      by exists [], (a :: s), s'.
    + intros H. destruct (IH H) as (u & s0 & s' & -> & Hd).
      by exists (a :: u), s0, s'.
Qed.

Lemma den_lit (l : string) (r : regex) :
  forall s g s' g',
    den (lit l r) s g s' g' -> exists t, s = chars l ++ t /\ den r t g s' g'.
Proof.
  induction l as [|a l IH]; simpl; intros s g s' g' H; [by exists s|].
  destruct H as (s1 & g1 & (b & -> & Hb & ->) & H).
  apply Ascii.eqb_eq in Hb as ->.
  destruct (IH _ _ _ _ H) as (t & -> & Hd). by exists t.
Qed.

(** A literal that starts with [g] can only be found after a text
    without [g]. *)
Lemma found_after (A u s0 X : list ascii) :
  Forall (fun b => Ascii.eqb b "g" = false) A ->
  A ++ X = u ++ s0 ->
  head s0 = Some "g"%char ->
  exists l, u = A ++ l /\ X = l ++ s0.
Proof.
  intros HA. revert u. induction HA as [|a A Ha HA IH]; intros u E Hh.
  - by exists u.
  - destruct u as [|b u]; simpl in E.
    + subst s0. simpl in Hh. injection Hh as ->. discriminate.
    + injection E as <- E. destruct (IH u E Hh) as (l & -> & ->). by exists l.
Qed.

Lemma occurs_suffix (l u s0 : list ascii) :
  occurs l (u ++ s0) = false -> starts l s0 = false.
Proof.
  induction u as [|a u IH]; simpl.
  - destruct s0; simpl; by intros [? _]%orb_false_elim.
  - intros [_ H]%orb_false_elim. auto.
Qed.

(** With no other occurrence of the host name, a match of a pattern that
    starts with it starts at it. *)
Lemma only_at_host (pre : string) (path u s0 : list ascii) :
  Py.has_char "g" pre = false ->
  occurs (chars host) path = false ->
  chars pre ++ chars host ++ path = u ++ s0 ->
  starts (chars host) s0 = true ->
  s0 = chars host ++ path.
Proof.
  intros Hpre Hocc E Hst.
  assert (Hh : head s0 = Some "g"%char).
  { apply starts_inv in Hst as (t & ->). reflexivity. }
  destruct (found_after _ _ _ _ (has_char_chars _ _ Hpre) E Hh) as (l & -> & E1).
  destruct l as [|c l]; [done|].
  change (chars host) with ("g"%char :: chars "ithub.com/") in E1.
  simpl in E1. injection E1 as <- E1.
  assert (Hg : Forall (fun b => Ascii.eqb b "g" = false) (chars "ithub.com/"))
    by (by apply has_char_chars).
  destruct (found_after _ _ _ _ Hg E1 Hh) as (l2 & -> & ->).
  apply occurs_suffix in Hocc. congruence.
Qed.

Lemma slashes_app (x y : list ascii) : slashes (x ++ y) = slashes x + slashes y.
Proof. induction x as [|a x IH]; simpl; [reflexivity|]. rewrite IH. lia. Qed.

Lemma slashes_cons (b : ascii) (y : list ascii) :
  slashes (b :: y) = (if Ascii.eqb b slash then 1 else 0) + slashes y.
Proof. reflexivity. Qed.

Lemma slashes_none (x : list ascii) :
  Forall (fun b => test (NotChar slash) b = true) x -> slashes x = 0.
Proof.
  induction 1 as [|a x Ha _ IH]; simpl; [reflexivity|].
  simpl in Ha. apply negb_true_iff in Ha. by rewrite Ha, IH.
Qed.

Lemma at_end_slashes (s : list ascii) : at_end s = true -> slashes s = 0.
Proof.
  destruct s as [|a [|b s]]; simpl; try discriminate; [reflexivity|].
  by intros ->%Ascii.eqb_eq.
Qed.

(** A text that the plain pattern reads after the host name has at most
    two slashes. *)
Lemma den_plain_slashes (t : list ascii) (g : groups) (s' : list ascii) (g' : groups) :
  den (Cat (Group 1 (Plus (NotChar slash) true))
      (Cat (One (Char slash))
      (Cat (Group 2 (Plus (NotChar slash) false)) plain_end))) t g s' g' ->
  slashes t <= 2.
Proof.
  intros H. simpl in H.
  destruct H as (s1 & g1 & (g0 & (a & w & -> & Ha & Hw & _) & _)
                 & s2 & g2 & (b & -> & Hb & _)
                 & s3 & g3 & (g0' & (c & w2 & -> & Hc & Hw2 & _) & _)
                 & s4 & g4 & Hgit & s5 & g5 & Hsl & He & -> & _).
  assert (S4 : slashes s3 = slashes s4).
  { destruct Hgit as [H|[-> _]]; [|reflexivity].
    destruct H as (x1 & ? & (c1 & -> & E1 & _) & x2 & ? & (c2 & -> & E2 & _)
                   & x3 & ? & (c3 & -> & E3 & _) & c4 & -> & E4 & _).
    apply Ascii.eqb_eq in E1, E2, E3, E4. subst. reflexivity. }
  assert (S5 : slashes s4 <= 1 + slashes s5).
  { destruct Hsl as [(d & -> & _)|[-> _]]; simpl; [|lia].
    destruct (Ascii.eqb d slash); lia. }
  apply at_end_slashes in He.
  change (slashes ((a :: w) ++ b :: ((c :: w2) ++ s3)) <= 2).
  rewrite (slashes_app (a :: w)), (slashes_cons b), (slashes_app (c :: w2)).
  rewrite (slashes_none (a :: w)) by (by constructor).
  rewrite (slashes_none (c :: w2)) by (by constructor).
  destruct (Ascii.eqb b slash); lia.
Qed.

Lemma first_slash (x x' y y' : list ascii) :
  Forall (fun b => test (NotChar slash) b = true) x ->
  Forall (fun b => test (NotChar slash) b = true) x' ->
  x ++ slash :: y = x' ++ slash :: y' ->
  x = x' /\ y = y'.
Proof.
  intros Hx. revert x'. induction Hx as [|a x Ha Hx IH]; intros x' Hx' E.
  - destruct x' as [|a' x']; simpl in E; [by injection E|].
    injection E as <- E. by inv Hx'.
  - destruct x' as [|a' x']; simpl in E.
    + injection E as -> E. done.
    + injection E as <- E. inv Hx'. destruct (IH x' H2 E) as [-> ->]. done.
Qed.

Lemma chars_plain_url (pre owner repo tl : string) :
  chars (plain_url pre owner repo tl)
  = chars pre ++ chars host ++ chars owner ++ slash :: chars repo ++ chars tl.
Proof. unfold plain_url. by rewrite !chars_app. Qed.

Lemma chars_path_of (owner repo dir rest : string) :
  chars (path_of owner repo dir rest)
  = chars owner ++ slash :: chars repo ++ chars ("/" ++ dir) ++ slash :: chars rest.
Proof. unfold path_of. rewrite !chars_app. simpl. by rewrite ?chars_app. Qed.

Lemma chars_sub_url (pre owner repo dir rest : string) :
  chars (sub_url pre owner repo dir rest)
  = chars pre ++ chars host ++ chars (path_of owner repo dir rest).
Proof. unfold sub_url. by rewrite !chars_app. Qed.

Lemma search_plain_url (pre owner repo tl : string) :
  Py.has_char "g" pre = false ->
  segment owner = true -> project repo = true -> In tl tails ->
  search pattern_plain (plain_url pre owner repo tl)
  = Some (set_group 2 (chars repo) (set_group 1 (chars owner) no_groups)).
Proof.
  intros Hpre Ho Hr Htl. unfold search.
  change list_ascii_of_string with chars. rewrite chars_plain_url.
  rewrite (search_from_skip pattern_plain "ithub.com/" _ pre _ pattern_plain_eq Hpre).
  apply search_from_here. by apply (plain_at_host owner repo tl).
Qed.

Lemma search_sub_url (pre owner repo dir rest : string) :
  Py.has_char "g" pre = false ->
  segment owner = true -> segment repo = true ->
  search (pattern_sub dir) (sub_url pre owner repo dir rest)
  = Some (set_group 2 (chars repo) (set_group 1 (chars owner) no_groups)).
Proof.
  intros Hpre Ho Hr. unfold search.
  change list_ascii_of_string with chars. rewrite chars_sub_url, chars_path_of.
  rewrite (search_from_skip (pattern_sub dir) "ithub.com/" _ pre _
             (pattern_sub_eq dir) Hpre).
  apply search_from_here. by apply sub_at_host.
Qed.

(** A match of a pattern that starts with the host name, in a URL with
    one occurrence of it. *)
Lemma search_at_host (p r : regex) (pre : string) (path : list ascii) (g : groups) :
  p = lit host r ->
  Py.has_char "g" pre = false ->
  occurs (chars host) path = false ->
  search_from p (chars pre ++ chars host ++ path) = Some g ->
  exists s', den r path no_groups s' g.
Proof.
  intros -> Hpre Hocc H.
  apply search_from_sound_suffix in H as (u & s0 & s' & E & Hd).
  apply den_lit in Hd as (t & -> & Hd).
  pose proof (only_at_host pre path u _ Hpre Hocc E (starts_app _ _)) as E'.
  apply app_inv_head in E' as ->. eauto.
Qed.

(** The plain pattern finds nothing in a tree or blob URL. *)
Lemma search_plain_sub_url (pre owner repo dir rest : string) :
  Py.has_char "g" pre = false ->
  occurs (chars host) (chars (path_of owner repo dir rest)) = false ->
  search pattern_plain (sub_url pre owner repo dir rest) = None.
Proof.
  intros Hpre Hocc. unfold search.
  change list_ascii_of_string with chars. rewrite chars_sub_url.
  destruct (search_from _ _) as [g|] eqn:S; [|reflexivity]. exfalso.
  apply (search_at_host _ _ pre _ g pattern_plain_eq Hpre Hocc) in S as (s' & Hd).
  apply den_plain_slashes in Hd.
  rewrite chars_path_of in Hd.
  rewrite !slashes_app, !slashes_cons, !slashes_app in Hd. simpl in Hd. lia.
Qed.

(** The tree pattern finds nothing in a blob URL. *)
Lemma search_tree_blob_url (pre owner repo rest : string) :
  Py.has_char "g" pre = false ->
  segment owner = true -> segment repo = true ->
  occurs (chars host) (chars (path_of owner repo "blob" rest)) = false ->
  search (pattern_sub "tree") (sub_url pre owner repo "blob" rest) = None.
Proof.
  intros Hpre Ho Hr Hocc. unfold search.
  change list_ascii_of_string with chars. rewrite chars_sub_url.
  destruct (search_from _ _) as [g|] eqn:S; [|reflexivity]. exfalso.
  apply (search_at_host _ _ pre _ g (pattern_sub_eq "tree") Hpre Hocc) in S
    as (s' & Hd).
  rewrite chars_path_of in Hd. cbn [den] in Hd.
  destruct Hd as (s1 & g1 & (g0 & (a & w & E1 & Ha & Hw & _) & _)
                  & s2 & g2 & (b & -> & Hb & _)
                  & s3 & g3 & (g0' & (c & w2 & -> & Hc & Hw2 & _) & _) & Hd).
  apply Ascii.eqb_eq in Hb as ->.
  destruct (segment_chars owner Ho) as [_ Hop].
  destruct (segment_chars repo Hr) as [_ Hrp].
  change (a :: w ++ slash :: c :: w2 ++ s3)
    with ((a :: w) ++ slash :: (c :: w2) ++ s3) in E1.
  apply first_slash in E1 as [_ E2]; [|assumption|by constructor].
  apply den_lit in Hd as (t & -> & _).
  change (chars ("/" ++ "tree") ++ t) with (slash :: chars "tree" ++ t) in E2.
  change (chars ("/" ++ "blob") ++ slash :: chars rest)
    with (slash :: chars "blob" ++ slash :: chars rest) in E2.
  apply first_slash in E2 as [_ E3]; [|assumption|by constructor].
  discriminate.
Qed.

End UrlFormFacts.

(** X7. A URL made of a text without [g] (a scheme, say), the host name,
    an owner, a slash and a project name, followed by nothing, a slash,
    [.git] or [.git/], is parsed to that owner and that project, and the
    run of the scripts analyser goes on with them. The owner is any
    non-empty text without slash, the project moreover has no newline and
    does not end in [.git] after something. *)
Theorem parse_plain_url (pre owner repo tl : string) :
  Py.has_char "g" pre = false ->
  UrlForms.segment owner = true ->
  UrlForms.project repo = true ->
  In tl UrlForms.tails ->
  Url._parse_github_url (UrlForms.plain_url pre owner repo tl)
  = (Some owner, Some repo)
  /\ forall (config : Type) (steps : string -> string -> string -> string -> config)
            server_name,
       Scripts.analyze_server_repository steps
         (UrlForms.plain_url pre owner repo tl) server_name
       = Ok (steps owner repo (UrlForms.plain_url pre owner repo tl) server_name).
Proof.
  intros Hpre Ho Hr Htl.
  assert (P : Url._parse_github_url (UrlForms.plain_url pre owner repo tl)
              = (Some owner, Some repo)).
  { unfold Url._parse_github_url, Url.patterns. simpl.
    rewrite (UrlFormFacts.search_plain_url pre owner repo tl) by assumption.
    unfold Re.set_group. simpl. by rewrite !UrlFormFacts.string_of_chars. }
  split; [exact P|].
  intros config steps name.
  unfold Scripts.analyze_server_repository, Scripts._parse_github_url.
  rewrite P.
  assert (owner <> "" /\ repo <> "") as [Hno Hnr].
  { unfold UrlForms.project, UrlForms.segment in *.
    destruct owner, repo; simpl in *; done. }
  by rewrite (UrlFacts.truthy_nonempty owner), (UrlFacts.truthy_nonempty repo).
Qed.

Lemma parse_plain_url_witness :
  Url._parse_github_url "https://github.com/acme/socket.io.git/"
  = (Some "acme", Some "socket.io")
  /\ forall (config : Type) (steps : string -> string -> string -> string -> config)
            server_name,
       Scripts.analyze_server_repository steps
         "https://github.com/acme/socket.io.git/" server_name
       = Ok (steps "acme" "socket.io" "https://github.com/acme/socket.io.git/"
               server_name).
Proof.
  apply (parse_plain_url "https://" "acme" "socket.io" ".git/");
    [reflexivity|reflexivity|reflexivity|simpl; auto].
Defined.

(** X8. A URL made of a text without [g], the host name, an owner, a
    project, [tree] or [blob] and any rest, with no second occurrence of
    the host name after the first, is parsed to that owner and that
    project: neither the plain pattern nor, for a blob URL, the tree
    pattern matches anywhere in it. *)
Theorem parse_sub_url (pre owner repo dir rest : string) :
  Py.has_char "g" pre = false ->
  UrlForms.segment owner = true ->
  UrlForms.segment repo = true ->
  In dir ["tree"; "blob"] ->
  UrlForms.occurs (UrlForms.chars UrlForms.host)
    (UrlForms.chars (UrlForms.path_of owner repo dir rest)) = false ->
  Url._parse_github_url (UrlForms.sub_url pre owner repo dir rest)
  = (Some owner, Some repo).
Proof.
  intros Hpre Ho Hr Hdir Hocc.
  unfold Url._parse_github_url, Url.patterns. simpl.
  rewrite UrlFormFacts.search_plain_sub_url by assumption.
  destruct Hdir as [<-|[<-|[]]].
  - rewrite UrlFormFacts.search_sub_url by assumption.
    unfold Re.set_group. simpl. by rewrite !UrlFormFacts.string_of_chars.
  - rewrite UrlFormFacts.search_tree_blob_url by assumption.
    rewrite UrlFormFacts.search_sub_url by assumption.
    unfold Re.set_group. simpl. by rewrite !UrlFormFacts.string_of_chars.
Qed.

Lemma parse_sub_url_witness :
  Url._parse_github_url "https://github.com/acme/widget.git/blob/main/src/tree/a.ts"
  = (Some "acme", Some "widget.git").
Proof.
  apply (parse_sub_url "https://" "acme" "widget.git" "blob" "main/src/tree/a.ts");
    [reflexivity|reflexivity|reflexivity|simpl; auto|vm_compute; reflexivity].
Defined.

(** Without the condition on the host name the result can be another
    pair. *)
Example parse_sub_url_second_host :
  Url._parse_github_url "https://github.com/acme/github.com/tree/main"
  = (Some "tree", Some "main").
Proof. vm_compute. reflexivity. Qed.

(** * The scripts analyser beyond the reference check *)

Module ServerFacts.
Import Server.

Lemma keys_set_same (k : string) (v : json) (d : dict) :
  In k (Dict.keys d) -> Dict.keys (Dict.set k v d) = Dict.keys d.
Proof.
  unfold Dict.keys. induction d as [|[k' v'] d IH]; simpl; [done|].
  destruct (String.eqb_spec k' k) as [->|Hne]; simpl; [reflexivity|].
  intros [?|H]; [done|]. by rewrite IH.
Qed.



End ServerFacts.


Example package_metadata_from_object :
  Server._analyze_package_metadata Server.sample_env
    {[ "package.json" :=
         "{" ++ dq ++ "name" ++ dq ++ ": " ++ dq ++ "Git-API" ++ dq ++ ", "
             ++ dq ++ "version" ++ dq ++ ": " ++ dq ++ "2.1.0" ++ dq ++ "}" ]}
  = Ok [ ("name", JStr "Git-API"); ("version", JStr "2.1.0"); ("description", JStr "");
         ("dependencies", JObj []); ("scripts", JObj []); ("author", JStr "");
         ("license", JStr "") ].
Proof. vm_compute. reflexivity. Qed.

Example package_metadata_from_list :
  Server._analyze_package_metadata Server.sample_env {[ "package.json" := "[1, 2]" ]}
  = Raise AttributeError.
Proof. vm_compute. reflexivity. Qed.

(** X10. The tags start with [mcp-server] and are taken, in this order
    and without repetition, from [mcp-server], [git], [database], [api];
    the only failure is the AttributeError of a package name that is not
    a string. *)
Theorem generate_tags_shape (e : Server.env) (metadata : dict) :
  match Server._generate_tags e metadata with
  | Ok tags =>
      head tags = Some "mcp-server"
      /\ tags `sublist_of` ["mcp-server"; "git"; "database"; "api"]
      /\ NoDup tags
  | Raise x =>
      x = AttributeError
      /\ exists v, Dict.get "name" metadata = Some v /\ forall t, v <> JStr t
  end.
Proof.
  unfold Server._generate_tags.
  assert (S : forall l : list string,
             l `sublist_of` ["mcp-server"; "git"; "database"; "api"] -> NoDup l).
  { intros l. apply sublist_NoDup. by apply NoDup_ListNoDup; repeat constructor;
      simpl; intuition discriminate. }
  destruct (Dict.get "name" metadata) as [v|] eqn:G; simpl.
  - destruct v as [| | | |t| |]; simpl;
      try (split; [reflexivity|]; eexists; split; [reflexivity|]; discriminate).
    destruct (Py.contains "git" _), (Py.contains "database" _ || Py.contains "db" _),
      (Py.contains "api" _); simpl;
      (split; [reflexivity|]);
      (match goal with |- ?P /\ _ => assert (H : P); [|split; [exact H|by apply S]] end);
      repeat first [apply sublist_skip | apply sublist_cons | apply sublist_nil].
  - destruct (Py.contains "git" _), (Py.contains "database" _ || Py.contains "db" _),
      (Py.contains "api" _); simpl;
      (split; [reflexivity|]);
      (match goal with |- ?P /\ _ => assert (H : P); [|split; [exact H|by apply S]] end);
      repeat first [apply sublist_skip | apply sublist_cons | apply sublist_nil].
Qed.

Example tags_of_git_api :
  Server._generate_tags Server.sample_env [("name", JStr "Git-API-DB")]
  = Ok ["mcp-server"; "git"; "database"; "api"].
Proof. vm_compute. reflexivity. Qed.

(** X11. The use cases are never empty and never more than four, so that
    the limit of five never cuts: either the one sentence that asks for
    an analysis, or one copy of the same sentence for each section title
    found in the README. *)
Theorem extract_use_cases_shape (e : Server.env) (file_contents : gmap string string) :
  let use_cases := Server._extract_use_cases e file_contents in
  1 <= length use_cases <= 4
  /\ (use_cases = ["Repository analysis required to determine use cases"]
      \/ use_cases
         = replicate (length use_cases) "Use case extracted from README analysis").
Proof.
  cbv zeta. unfold Server._extract_use_cases, Server.use_case_sections. simpl.
  repeat (destruct (Py.contains _ _)); simpl; split; try lia; auto.
Qed.

Module ToolFacts.
Import Server.
Local Open Scope list_scope.

Local Abbreviation names tools := (tool_name <$> tools).

Lemma add_matches_spec (file : string) (ms : list string) :
  forall tools,
    exists new,
      add_matches file ms tools = tools ++ new
      /\ (NoDup (names tools) -> NoDup (names (tools ++ new)))
      /\ (forall t, t ∈ new -> tool_source t = file /\ tool_name t ∈ ms)
      /\ (forall m, m ∈ ms -> m ∈ names (tools ++ new)).
Proof.
  induction ms as [|m ms IH]; simpl; intros tools.
  - exists []. rewrite app_nil_r. split; [done|]. split; [done|].
    split; intros x Hx; by inv Hx.
  - destruct (Nu.listed m (names tools)) eqn:L.
    + apply KeyFileFacts.listed_elem_of in L.
      destruct (IH tools) as (new & -> & Hnd & Hnew & Hcov).
      exists new. split; [done|]. split; [done|]. split.
      * intros t Ht. destruct (Hnew t Ht). split; [done|by right].
      * intros x Hx. inv Hx; [|by auto].
        rewrite fmap_app. apply elem_of_app. by left.
    + assert (m ∉ names tools) as Hm.
      { intros Hin%KeyFileFacts.listed_elem_of. congruence. }
      destruct (IH (tools ++ [{| tool_name := m; tool_source := file |}]))
        as (new & -> & Hnd & Hnew & Hcov).
      exists ({| tool_name := m; tool_source := file |} :: new).
      rewrite <- app_assoc. simpl. split; [done|]. split.
      * intros Hk.
        replace (tools ++ {| tool_name := m; tool_source := file |} :: new)
          with ((tools ++ [{| tool_name := m; tool_source := file |}]) ++ new)
          by (by rewrite <- app_assoc).
        apply Hnd. rewrite fmap_app. simpl.
        apply NoDup_app. split; [done|]. split; [|apply NoDup_singleton].
        intros x Hx ->%list_elem_of_singleton. done.
      * split.
        -- intros t Ht. inv Ht; [split; [done|by left]|].
           destruct (Hnew t) as [? ?]; [done|]. split; [done|by right].
        -- intros x Hx.
           replace (tools ++ {| tool_name := m; tool_source := file |} :: new)
             with ((tools ++ [{| tool_name := m; tool_source := file |}]) ++ new)
             by (by rewrite <- app_assoc).
           inv Hx; [|by auto].
           rewrite !fmap_app. apply elem_of_app. left.
           apply elem_of_app. right. by left.
Qed.

Lemma scan_patterns_spec (e : env) (file content : string) (patterns : list string) :
  forall tools,
    exists new,
      scan_patterns e file content patterns tools = tools ++ new
      /\ (NoDup (names tools) -> NoDup (names (tools ++ new)))
      /\ (forall t, t ∈ new ->
            tool_source t = file
            /\ exists p, p ∈ patterns /\ tool_name t ∈ re_findall e p content)
      /\ (forall p m, p ∈ patterns -> m ∈ re_findall e p content ->
                      m ∈ names (tools ++ new)).
Proof.
  induction patterns as [|p ps IH]; simpl; intros tools.
  - exists []. rewrite app_nil_r. split; [done|]. split; [done|].
    split; [intros x Hx; by inv Hx|intros q m Hq; by inv Hq].
  - destruct (add_matches_spec file (re_findall e p content) tools)
      as (n1 & -> & Hnd1 & Hnew1 & Hcov1).
    destruct (IH (tools ++ n1)) as (n2 & -> & Hnd2 & Hnew2 & Hcov2).
    exists (n1 ++ n2). rewrite app_assoc. split; [done|]. split; [auto|]. split.
    + intros t [Ht|Ht]%elem_of_app.
      * destruct (Hnew1 t Ht). split; [done|]. exists p. split; [by left|done].
      * destruct (Hnew2 t Ht) as (? & q & ? & ?). split; [done|].
        exists q. split; [by right|done].
    + intros q m Hq Hm. inv Hq; [|by eauto].
      rewrite fmap_app. apply elem_of_app. left. by apply Hcov1.
Qed.

Lemma scan_files_cons (e : env) (fc : gmap string string) (f : string)
    (fs : list string) (tools : list tool) :
  scan_files e fc (f :: fs) tools
  = scan_files e fc fs
      (if String.eqb (default ""%string (fc !! f)) "" then tools
       else scan_patterns e f (default ""%string (fc !! f)) tool_patterns tools).
Proof. reflexivity. Qed.

Lemma scan_files_spec (e : env) (fc : gmap string string) (files : list string) :
  forall tools,
    exists new,
      scan_files e fc files tools = tools ++ new
      /\ (NoDup (names tools) -> NoDup (names (tools ++ new)))
      /\ (forall t, t ∈ new ->
            tool_source t ∈ files
            /\ exists p content,
                 p ∈ tool_patterns /\ fc !! tool_source t = Some content
                 /\ content <> ""%string /\ tool_name t ∈ re_findall e p content)
      /\ (forall file content p m,
            file ∈ files -> fc !! file = Some content -> content <> ""%string ->
            p ∈ tool_patterns -> m ∈ re_findall e p content ->
            m ∈ names (tools ++ new)).
Proof.
  induction files as [|f fs IH]; intros tools.
  - exists []. rewrite app_nil_r. split; [done|]. split; [done|].
    split; [intros x Hx; by inv Hx|intros ? ? ? ? Hf; by inv Hf].
  - rewrite scan_files_cons.
    destruct (String.eqb_spec (default ""%string (fc !! f)) "") as [Hc|Hc].
    + destruct (IH tools) as (new & -> & Hnd & Hnew & Hcov).
      exists new. split; [done|]. split; [done|]. split.
      * intros t Ht. destruct (Hnew t Ht). split; [by right|done].
      * intros file content p m Hf Hl Hne.
        apply elem_of_cons in Hf as [->|Hf]; [|by eauto].
        rewrite Hl in Hc. simpl in Hc. done.
    + destruct (fc !! f) as [content|] eqn:Hl; [|done].
      change (default ""%string (Some content)) with content in *.
      destruct (scan_patterns_spec e f content tool_patterns tools)
        as (n1 & -> & Hnd1 & Hnew1 & Hcov1).
      destruct (IH (tools ++ n1)) as (n2 & -> & Hnd2 & Hnew2 & Hcov2).
      exists (n1 ++ n2). rewrite app_assoc. split; [done|]. split; [auto|]. split.
      * intros t [Ht|Ht]%elem_of_app.
        -- destruct (Hnew1 t Ht) as (Hs & p & Hp & Hm). rewrite Hs.
           split; [by left|]. exists p, content. done.
        -- destruct (Hnew2 t Ht). split; [by right|done].
      * intros file c p m Hf Hlc Hne Hp Hm.
        apply elem_of_cons in Hf as [->|Hf]; [|by eauto].
        rewrite Hl in Hlc. injection Hlc as <-.
        rewrite fmap_app. apply elem_of_app. left. by apply (Hcov1 p).
Qed.

End ToolFacts.

(** X12. No tool is listed twice by name; every listed tool was found by
    one of the three patterns in one of the six source files, which is
    there and not empty; and every name a pattern finds in such a file is
    the name of a listed tool. *)
Theorem found_tools_unique_and_complete (e : Server.env)
    (file_contents : gmap string string) :
  let tools := Server.found_tools e file_contents in
  NoDup (Server.tool_name <$> tools)
  /\ (forall t, t ∈ tools -> Server.found_in e file_contents t)
  /\ (forall file content p m,
        file ∈ Server.source_files -> file_contents !! file = Some content ->
        content <> "" -> p ∈ Server.tool_patterns ->
        m ∈ Server.re_findall e p content ->
        m ∈ Server.tool_name <$> tools)
  /\ Dict.get "tools"
       (Server._analyze_tools_and_resources e file_contents
          (Server._get_repository_tree "" ""))
     = Some (JArr (Server.tool_json <$> tools)).
Proof.
  cbv zeta. unfold Server.found_tools.
  destruct (ToolFacts.scan_files_spec e file_contents Server.source_files [])
    as (new & E & Hnd & Hnew & Hcov).
  change ([] ++ new)%list with new in *. rewrite E.
  split; [apply Hnd, NoDup_nil_2|]. split; [|split; [exact Hcov|]].
  - intros t Ht. destruct (Hnew t Ht) as (Hs & p & content & ? & ? & ? & ?).
    exists p, content. done.
  - unfold Server._analyze_tools_and_resources, Server.found_tools.
    by rewrite E.
Qed.

Example tools_found_twice :
  Server.found_tools
    {| Server.json_loads := JsonReader.loads;
       Server.str_lower := Server.lower_ascii;
       Server.str_title := fun s => s;
       Server.re_findall := fun _ content =>
         if String.eqb content "a" then ["search"; "fetch"; "search"] else ["fetch"];
       Server.float_nonzero := fun _ => true;
       Server.now := "2025-06-01T12:00:00";
       Server.hq_dir := "/srv/claude-hq";
       Server.can_write := fun _ => true |}
    (<["index.js" := "b"]> (<["src/index.ts" := "a"]> (<["README.md" := "a"]> ∅)))
  = [ {| Server.tool_name := "search"; Server.tool_source := "src/index.ts" |};
      {| Server.tool_name := "fetch"; Server.tool_source := "src/index.ts" |} ].
Proof. vm_compute. reflexivity. Qed.

Module RunFacts.
Import Server.


(** The record [_generate_server_config] builds once the tags are there. *)
Lemma config_of_tags (e : env) (name url : string)
    (repo_summary metadata tools_info : dict)
    (deployment_info : gmap string (gmap string bool))
    (file_contents : gmap string string) (tags : list string) :
  _generate_tags e metadata = Ok tags ->
  exists config m,
    _generate_server_config e name url repo_summary metadata tools_info
      deployment_info file_contents = Ok (JObj config)
    /\ well_formed name url config
    /\ Dict.get "metadata" config = Some (JObj m)
    /\ Dict.get "tags" m = Some (strs tags)
    /\ Dict.get "tools" m = Some (get_or "tools" (JArr []) tools_info)
    /\ Dict.get "priority_deployment" m
       = Some (JStr (Scripts._determine_priority_deployment deployment_info))
    /\ Dict.get "version" m = Some (get_or "version" (JStr "1.0.0") metadata)
    /\ Dict.get "description" m
       = Some (if truthy e (get_or "description" JNull metadata)
               then get_or "description" JNull metadata
               else get_or "description" (JStr "") repo_summary)
    /\ Dict.get "namespace" m
       = Some (JStr (let owner := (Scripts._parse_github_url url).1 in
                     if Py.truthy owner then Nu.fmt owner else "unknown"))
    /\ Dict.get "package" m
       = Some (JStr (let repo := (Scripts._parse_github_url url).2 in
                     if Py.truthy repo then Nu.fmt repo else name)).
Proof.
  intros Ht. unfold _generate_server_config.
  destruct (Scripts._parse_github_url url) as [owner repo].
  rewrite Ht. cbv beta iota delta [mbind result_bind].
  eexists _, _. split; [reflexivity|].
  split; [|repeat split; reflexivity].
  split; [reflexivity|]. split; [reflexivity|].
  eexists. repeat split; reflexivity.
Qed.

Lemma run_files_package (owner repo : string) :
  Scripts._extract_file_contents owner repo Scripts._identify_key_files
    !! "package.json"
  = Some (placeholder "package.json").
Proof. reflexivity. Qed.

(** With a [package.json] text that is no JSON, the run is the record
    built from the default metadata. *)
Lemma steps_default (e : env) (owner repo url name : string) :
  json_loads e (placeholder "package.json") = None ->
  steps e owner repo url name
  = (let file_contents :=
       Scripts._extract_file_contents owner repo Scripts._identify_key_files in
     _generate_server_config e name url (_get_repository_summary owner repo)
       default_metadata
       (_analyze_tools_and_resources e file_contents
          (_get_repository_tree owner repo))
       (Scripts._analyze_deployment_options file_contents) file_contents).
Proof.
  intros Hl. unfold steps, _analyze_package_metadata.
  cbv zeta. rewrite run_files_package.
  change (default "{}" (Some (placeholder "package.json")))
    with (placeholder "package.json").
  unfold loads. rewrite Hl. reflexivity.
Qed.

Lemma default_tags (e : env) :
  exists tags, _generate_tags e default_metadata = Ok tags.
Proof. unfold _generate_tags. eexists. reflexivity. Qed.

Lemma priority_of_run (file_contents : gmap string string) :
  Scripts._determine_priority_deployment
    (Scripts._analyze_deployment_options file_contents) = "smithery".
Proof.
  unfold Scripts._determine_priority_deployment.
  by rewrite smithery_always_available.
Qed.

(** What a run returns on a URL that a pattern matches. *)
Lemma run_record (e : env) (url name owner repo : string) :
  json_loads e (placeholder "package.json") = None ->
  Scripts._parse_github_url url = (Some owner, Some repo) ->
  owner <> "" -> repo <> "" ->
  exists config m,
    analyze_server_repository e url name = Ok (JObj config)
    /\ well_formed name url config
    /\ Dict.get "metadata" config = Some (JObj m)
    /\ Dict.get "namespace" m = Some (JStr owner)
    /\ Dict.get "package" m = Some (JStr repo)
    /\ Dict.get "version" m = Some (JStr "1.0.0")
    /\ Dict.get "description" m = Some (JStr "Repository description from API")
    /\ Dict.get "priority_deployment" m = Some (JStr "smithery")
    /\ Dict.get "tools" m
       = Some (JArr (tool_json <$>
                       found_tools e
                         (Scripts._extract_file_contents owner repo
                            Scripts._identify_key_files)))
    /\ exists tags, Dict.get "tags" m = Some (strs tags).
Proof.
  intros Hl Hp Ho Hr.
  unfold analyze_server_repository, Scripts.analyze_server_repository.
  rewrite Hp, (UrlFacts.truthy_nonempty owner Ho), (UrlFacts.truthy_nonempty repo Hr).
  cbn [negb orb mbind result_bind Nu.fmt].
  rewrite (steps_default e owner repo url name Hl). cbv zeta.
  destruct (default_tags e) as [tags Ht].
  destruct (config_of_tags e name url (_get_repository_summary owner repo)
              default_metadata
              (_analyze_tools_and_resources e
                 (Scripts._extract_file_contents owner repo Scripts._identify_key_files)
                 (_get_repository_tree owner repo))
              (Scripts._analyze_deployment_options
                 (Scripts._extract_file_contents owner repo Scripts._identify_key_files))
              (Scripts._extract_file_contents owner repo Scripts._identify_key_files)
              tags Ht)
    as (config & m & -> & Hwf & Hm & Htags & Htools & Hprio & Hver & Hdesc & Hns & Hpk).
  exists config, m. split; [done|]. split; [done|]. split; [done|].
  rewrite Hp in Hns, Hpk. cbv zeta in Hns, Hpk. cbn [fst snd] in Hns, Hpk.
  rewrite (UrlFacts.truthy_nonempty owner Ho) in Hns.
  rewrite (UrlFacts.truthy_nonempty repo Hr) in Hpk.
  rewrite priority_of_run in Hprio.
  repeat split; try done.
  exists tags. done.
Qed.

End RunFacts.

(** X13. The record [_generate_server_config] builds.  When the tags cannot
    be computed (the metadata name is no string) the call raises that
    error; otherwise it returns a mapping with the seven sections in
    order, each a non-empty mapping, whose metadata carries the given
    server name, the given URL, the tags, the tools of the tool analysis
    and the priority deployment of the deployment analysis.  The namespace
    and the package are the owner and the project of the URL, and
    [unknown] and the server name when no pattern matches the URL. *)
Theorem generate_server_config_record (e : Server.env) (name url : string)
    (repo_summary metadata tools_info : dict)
    (deployment_info : gmap string (gmap string bool))
    (file_contents : gmap string string) :
  match Server._generate_tags e metadata with
  | Raise x =>
      Server._generate_server_config e name url repo_summary metadata tools_info
        deployment_info file_contents = Raise x
  | Ok tags =>
      exists config m,
        Server._generate_server_config e name url repo_summary metadata tools_info
          deployment_info file_contents = Ok (JObj config)
        /\ Server.well_formed name url config
        /\ Dict.get "metadata" config = Some (JObj m)
        /\ Dict.get "tags" m = Some (Server.strs tags)
        /\ Dict.get "tools" m = Some (Server.get_or "tools" (JArr []) tools_info)
        /\ Dict.get "priority_deployment" m
           = Some (JStr (Scripts._determine_priority_deployment deployment_info))
        /\ (Url.some_pattern_matches url = false ->
            Dict.get "namespace" m = Some (JStr "unknown")
            /\ Dict.get "package" m = Some (JStr name))
        /\ (forall owner repo,
              Scripts._parse_github_url url = (Some owner, Some repo) ->
              Dict.get "namespace" m = Some (JStr owner)
              /\ Dict.get "package" m = Some (JStr repo))
  end.
Proof.
  destruct (Server._generate_tags e metadata) as [tags|x] eqn:Ht.
  - destruct (RunFacts.config_of_tags e name url repo_summary metadata tools_info
                deployment_info file_contents tags Ht)
      as (config & m & E & Hwf & Hm & Htags & Htools & Hprio & _ & _ & Hns & Hpk).
    exists config, m. repeat (split; [done|]).
    unfold Scripts._parse_github_url in *.
    destruct (UrlFacts.parse_cases url)
      as [[Hp Hno]|(p & g & o & r & _ & _ & _ & _ & Hp & Ho & Hr & Hyes)];
      rewrite Hp in Hns, Hpk |- *; cbv zeta in Hns, Hpk; cbn [fst snd] in Hns, Hpk.
    + split; [done|]. intros owner repo [=].
    + rewrite (UrlFacts.truthy_nonempty o Ho) in Hns.
      rewrite (UrlFacts.truthy_nonempty r Hr) in Hpk.
      split; [intros; congruence|]. by intros owner repo [= <- <-].
  - unfold Server._generate_server_config.
    destruct (Scripts._parse_github_url url) as [owner repo].
    by rewrite Ht.
Qed.

(** X14. A run of [analyze_server_repository] whose placeholder text for
    [package.json] is no JSON.  When no pattern matches the URL it raises
    the invalid-URL error.  When one does, it returns a record with the
    seven filled sections whose metadata has the given server name and
    URL, the owner and the project of the URL as namespace and package,
    version 1.0.0, the description of the repository summary, priority
    deployment [smithery], and as tools the ones found in the files. *)
Theorem analyze_server_repository_run (e : Server.env) (url name : string) :
  Server.json_loads e (Server.placeholder "package.json") = None ->
  (Url.some_pattern_matches url = false
   /\ Server.analyze_server_repository e url name
      = Raise (ValueError ("Invalid GitHub URL: " ++ url)))
  \/ (Url.some_pattern_matches url = true
      /\ exists owner repo config m,
           Scripts._parse_github_url url = (Some owner, Some repo)
           /\ Server.analyze_server_repository e url name = Ok (JObj config)
           /\ Server.well_formed name url config
           /\ Dict.get "metadata" config = Some (JObj m)
           /\ Dict.get "namespace" m = Some (JStr owner)
           /\ Dict.get "package" m = Some (JStr repo)
           /\ Dict.get "version" m = Some (JStr "1.0.0")
           /\ Dict.get "description" m
              = Some (JStr "Repository description from API")
           /\ Dict.get "priority_deployment" m = Some (JStr "smithery")
           /\ Dict.get "tools" m
              = Some (JArr (Server.tool_json <$>
                              Server.found_tools e
                                (Scripts._extract_file_contents owner repo
                                   Scripts._identify_key_files)))).
Proof.
  intros Hl.
  destruct (UrlFacts.parse_cases url)
    as [[Hp Hno]|(p & g & o & r & _ & _ & _ & _ & Hp & Ho & Hr & Hyes)].
  - left. split; [done|].
    unfold Server.analyze_server_repository, Scripts.analyze_server_repository,
      Scripts._parse_github_url.
    by rewrite Hp.
  - right. split; [done|].
    destruct (RunFacts.run_record e url name o r Hl Hp Ho Hr)
      as (config & m & E & Hwf & Hm & Hns & Hpk & Hv & Hd & Hpr & Htl & _).
    exists o, r, config, m. done.
Qed.

Lemma analyze_server_repository_run_witness :
  Server.json_loads Server.sample_env (Server.placeholder "package.json") = None
  /\ Url.some_pattern_matches "https://github.com/acme/widget-mcp" = true
  /\ exists config,
       Server.analyze_server_repository Server.sample_env
         "https://github.com/acme/widget-mcp" "widget" = Ok (JObj config)
       /\ Server.well_formed "widget" "https://github.com/acme/widget-mcp" config.
Proof.
  split; [vm_compute; reflexivity|]. split; [vm_compute; reflexivity|].
  destruct (analyze_server_repository_run Server.sample_env
              "https://github.com/acme/widget-mcp" "widget")
    as [[Hno _]|(_ & o & r & config & m & _ & E & Hwf & _)].
  - vm_compute. reflexivity.
  - vm_compute in Hno. discriminate Hno.
  - exists config. split; assumption.
Defined.



Example server_main_bad_url :
  Server.main Server.sample_env
    {| Server.github_url := "https://gitlab.com/acme/widget-mcp";
       Server.server_name := "widget";
       Server.output := Some "out.json" |}
  = {| Nu.exit_code := 1; Nu.written := [] |}.
Proof. vm_compute. reflexivity. Qed.

(** X16. The deployment analysis of the scripts analyser returns the four
    targets smithery, local, docker and npm.  Smithery is marked available
    whatever the files; npm and local exactly when [package.json] is among
    the files; docker exactly when [Dockerfile] or [docker-compose.yml]
    is.  A run keeps the first ten priority files only, which include
    [package.json] and neither Docker file, so in a run npm and local are
    available and docker is not. *)
Theorem analyze_deployment_options_flags (file_contents : gmap string string) :
  let deployment := Scripts._analyze_deployment_options file_contents in
  (forall name, is_Some (deployment !! name)
                <-> name ∈ ["smithery"; "local"; "docker"; "npm"])
  /\ Scripts.is_available deployment "smithery" = true
  /\ Scripts.is_available deployment "npm"
     = Scripts.has_file "package.json" file_contents
  /\ Scripts.is_available deployment "local"
     = Scripts.has_file "package.json" file_contents
  /\ Scripts.is_available deployment "docker"
     = Scripts.has_file "Dockerfile" file_contents
       || Scripts.has_file "docker-compose.yml" file_contents
  /\ (forall owner repo,
        let run :=
          Scripts._analyze_deployment_options
            (Scripts._extract_file_contents owner repo Scripts._identify_key_files) in
        Scripts.is_available run "npm" = true
        /\ Scripts.is_available run "local" = true
        /\ Scripts.is_available run "docker" = false).
Proof.
  cbv zeta. unfold Scripts._analyze_deployment_options.
  split; [|split; [|split; [|split; [|split]]]].
  - intros name.
    destruct (Scripts.has_file "package.json" file_contents),
      (Scripts.has_file "Dockerfile" file_contents),
      (Scripts.has_file "docker-compose.yml" file_contents);
      cbn [orb]; unfold Scripts.mark_available;
      rewrite !lookup_insert_is_Some', lookup_empty;
      rewrite !elem_of_cons, elem_of_nil;
      pose proof (@is_Some_None (gmap string bool));
      intuition (subst; tauto).
  - apply smithery_always_available.
  - destruct (Scripts.has_file "package.json" file_contents),
      (Scripts.has_file "Dockerfile" file_contents),
      (Scripts.has_file "docker-compose.yml" file_contents); reflexivity.
  - destruct (Scripts.has_file "package.json" file_contents),
      (Scripts.has_file "Dockerfile" file_contents),
      (Scripts.has_file "docker-compose.yml" file_contents); reflexivity.
  - destruct (Scripts.has_file "package.json" file_contents),
      (Scripts.has_file "Dockerfile" file_contents),
      (Scripts.has_file "docker-compose.yml" file_contents); reflexivity.
  - intros owner repo. repeat split; vm_compute; reflexivity.
Qed.

Lemma scripts_extract_lookup (owner repo : string) (file_paths : list string)
    (path : string) :
  Scripts._extract_file_contents owner repo file_paths !! path
  = if decide (path ∈ file_paths) then Some (Server.placeholder path) else None.
Proof.
  unfold Scripts._extract_file_contents.
  induction file_paths as [|p l IH]; [done|].
  cbn [map list_to_map foldr].
  destruct (decide (p = path)) as [->|Hne].
  - rewrite lookup_insert_eq, decide_True; [done|by left].
  - rewrite lookup_insert_ne, IH; [|done].
    destruct (decide (path ∈ l)) as [Hin|Hin].
    + rewrite decide_True; [done|by right].
    + rewrite decide_False; [done|].
      intros [->|?]%elem_of_cons; done.
Qed.

(** X17. The file extraction of the scripts analyser maps every requested
    path, and no other, to its placeholder text, whatever the owner and
    the project; a path requested twice is one key. *)
Theorem scripts_extract_file_contents_lookup (owner repo : string)
    (file_paths : list string) (path : string) :
  (path ∈ file_paths ->
   Scripts._extract_file_contents owner repo file_paths !! path
   = Some (Server.placeholder path))
  /\ (path ∉ file_paths ->
      Scripts._extract_file_contents owner repo file_paths !! path = None)
  /\ (NoDup file_paths ->
      size (Scripts._extract_file_contents owner repo file_paths)
      = length file_paths)
  /\ Scripts._extract_file_contents owner repo (path :: path :: file_paths)
     = Scripts._extract_file_contents owner repo (path :: file_paths).
Proof.
  rewrite scripts_extract_lookup.
  split; [by intros H; rewrite decide_True|].
  split; [by intros H; rewrite decide_False|]. split.
  - induction 1 as [|p l Hp Hl IH]; [done|].
    change (Scripts._extract_file_contents owner repo (p :: l))
      with (<[p := ("Content of " ++ p ++ " would be extracted here")%string]>
              (Scripts._extract_file_contents owner repo l)).
    rewrite map_size_insert_None; [by rewrite IH|].
    by rewrite scripts_extract_lookup, decide_False.
  - change (Scripts._extract_file_contents owner repo (path :: path :: file_paths))
      with (<[path := ("Content of " ++ path ++ " would be extracted here")%string]>
              (<[path := ("Content of " ++ path ++ " would be extracted here")%string]>
                 (Scripts._extract_file_contents owner repo file_paths))).
    by rewrite insert_insert_eq.
Qed.

Lemma scripts_extract_file_contents_lookup_witness :
  Scripts._extract_file_contents "acme" "widget-mcp" ["README.md"; "package.json"]
    !! "package.json"
  = Some "Content of package.json would be extracted here".
Proof.
  apply (scripts_extract_file_contents_lookup "acme" "widget-mcp"
           ["README.md"; "package.json"] "package.json").
  apply elem_of_cons. right. apply elem_of_cons. by left.
Defined.
